(** * XP::Session — the per-connection session pump of network_common/session.h

    A shallow embedding of [Session<TSession>]: [Shutdown], [PostReceive] and
    its read-completion lambda, [PostWrite] and its write-completion lambda,
    and [SendPacket].  The C++ code mutates the session object, writes log
    lines, calls into the socket and posts asynchronous operations; here this
    is a small state monad over the session that also emits a trace of events
    and can end in a C++ exception or in [std::terminate]. *)

From Stdlib Require Import ZArith String List Bool Lia.
Import ListNotations.
Local Open Scope Z_scope.

(** ** Integer narrowing *)

(** [static_cast<uint16>(x)] for an unsigned [x]: reduction modulo 2^16. *)
Definition uint16 (x : Z) : Z := x mod 2 ^ 16.

(** [static_cast<std::size_t>(x)] on a 64-bit target. *)
Definition size_t (x : Z) : Z := x mod 2 ^ 64.

(** ** boost::system::error_code *)

Inductive error_category : Type :=
| system_category
| misc_category
| netdb_category
| addrinfo_category.

Record error_code : Type := ErrorCode { value : Z; category : error_category }.

Definition category_eqb (a b : error_category) : bool :=
  match a, b with
  | system_category, system_category => true
  | misc_category, misc_category => true
  | netdb_category, netdb_category => true
  | addrinfo_category, addrinfo_category => true
  | _, _ => false
  end.

(** [operator==] on error codes: same value, same category. *)
Definition error_code_eqb (a b : error_code) : bool :=
  (value a =? value b) && category_eqb (category a) (category b).

(** [if (errorCode)]: an error code converts to true when it holds a failure. *)
Definition failed (ec : error_code) : bool := negb (value ec =? 0).

(** The constants of [boost::asio::error] the session compares against.  The
    numeric values are those of the Winsock build (the session locks with a
    slim reader/writer lock); the proofs use only that they are distinct and
    non-zero. *)
Module asio_error.
Definition success : error_code := ErrorCode 0 system_category.
Definition eof : error_code := ErrorCode 2 misc_category.
Definition connection_reset : error_code := ErrorCode 10054 system_category.
Definition connection_aborted : error_code := ErrorCode 10053 system_category.
Definition not_connected : error_code := ErrorCode 10057 system_category.
Definition timed_out : error_code := ErrorCode 10060 system_category.
Definition operation_aborted : error_code := ErrorCode 995 system_category.
End asio_error.

(** ** boost::asio::socket_base::shutdown_type *)

Inductive shutdown_type : Type :=
| shutdown_receive
| shutdown_send
| shutdown_both.

Definition GetShutdownTypeString (shutdownType : shutdown_type) : string :=
  match shutdownType with
  | shutdown_send => "shutdown_send"
  | shutdown_receive => "shutdown_receive"
  | shutdown_both => "shutdown_both"
  end%string.

(** ** Exceptions

    The throwing overloads of the socket ([shutdown], [close]) raise a
    [boost::system::system_error] that wraps the error code.  A handler
    [catch (const boost::system::error_code&)] selects on the dynamic type of
    the thrown object, so both types are kept apart. *)
Inductive exception : Type :=
| system_error (code : error_code)
| thrown_error_code (code : error_code).

(** ** The socket *)

Record endpoint : Type := Endpoint { address : string; port : Z }.

(** What the session can see of its [tcp::socket], together with what the
    operating system will answer to the calls that can fail: the query of
    the remote endpoint, [shutdown] for each mode, and [close]. *)
Record socket : Type := Socket {
  is_open : bool;
  local_endpoint : endpoint;
  remote_endpoint : endpoint;
  remote_endpoint_status : error_code;
  shutdown_status : shutdown_type -> error_code;
  close_status : error_code
}.

(** ** PacketBuffer *)

(** Modelled from the spec: the class PacketBuffer is declared outside
    session.h.  Section 3 of the specification gives its data: a contiguous
    storage, a read cursor and a write cursor, [readCursor, writeCursor)
    being the pending bytes. *)
Record PacketBuffer : Type := Buffer {
  storage : list Byte.byte;
  capacity : Z;
  readCursor : Z;
  writeCursor : Z
}.

(** Modelled from the spec: PacketBuffer::GetRemainSize is missing; the
    remaining capacity is the free bytes at the tail, capacity - writeCursor. *)
Definition GetRemainSize (b : PacketBuffer) : Z := capacity b - writeCursor b.

(** Modelled from the spec: PacketBuffer::GetBufferSize is missing; the bytes
    handed to the write are those of [readCursor, writeCursor). *)
Definition GetBufferSize (b : PacketBuffer) : Z := writeCursor b - readCursor b.

(** Modelled from the spec: PacketBuffer::GetBuffer is missing; the pending
    bytes, in order, starting at the read cursor. *)
Definition GetBuffer (b : PacketBuffer) : list Byte.byte :=
  firstn (Z.to_nat (GetBufferSize b)) (skipn (Z.to_nat (readCursor b)) (storage b)).

(** Modelled from the spec: PacketBuffer::IsEmptyData is missing; it holds
    when readCursor == writeCursor, nothing being left to send. *)
Definition IsEmptyData (b : PacketBuffer) : bool := readCursor b =? writeCursor b.

(** Modelled from the spec: PacketBuffer::ReArrange is missing; compaction
    shifts the pending bytes to offset 0 and resets both cursors accordingly. *)
Definition ReArrange (b : PacketBuffer) : PacketBuffer :=
  let pending := GetBuffer b in
  {| storage := pending ++ skipn (length pending) (storage b);
     capacity := capacity b;
     readCursor := 0;
     writeCursor := GetBufferSize b |}.

(** Modelled from the spec: PacketBuffer::AppendWriteSize is missing;
    record-bytes-written(n) advances the write cursor by n and fails when n
    would exceed the capacity. *)
Definition AppendWriteSize (n : Z) (b : PacketBuffer) : bool * PacketBuffer :=
  if writeCursor b + n <=? capacity b
  then (true, {| storage := storage b; capacity := capacity b;
                 readCursor := readCursor b; writeCursor := writeCursor b + n |})
  else (false, b).

(** Modelled from the spec: PacketBuffer::TruncateBuffer is missing;
    record-bytes-sent(n) advances the read cursor by n. *)
Definition TruncateBuffer (n : Z) (b : PacketBuffer) : PacketBuffer :=
  {| storage := storage b; capacity := capacity b;
     readCursor := readCursor b + n; writeCursor := writeCursor b |}.

(** Modelled from the spec: PacketBuffer::SetPacket is missing; set-packet
    appends the serialized packet at the write cursor and grows the cursor, or
    fails and leaves the buffer unchanged when the packet would exceed the
    capacity.  A packet is given by its serialized bytes. *)
Definition SetPacket (packet : list Byte.byte) (b : PacketBuffer) : bool * PacketBuffer :=
  let n := Z.of_nat (length packet) in
  if writeCursor b + n <=? capacity b
  then (true, {| storage := firstn (Z.to_nat (writeCursor b)) (storage b) ++ packet
                            ++ skipn (Z.to_nat (writeCursor b + n)) (storage b);
                 capacity := capacity b;
                 readCursor := readCursor b;
                 writeCursor := writeCursor b + n |})
  else (false, b).

(** ** The session object *)

Record Session : Type := MkSession {
  _socket : socket;
  _recvBuffer : PacketBuffer;
  _sendBuffer : PacketBuffer
}.

(** ** Log lines and observable events *)

Inductive log_level : Type := LEVEL_INFO | LEVEL_ERROR.

Inductive log_filter : Type :=
| LOG_FILTER_SERVER
| LOG_FILTER_CONNECTION
| LOG_FILTER_PACKET_BUFFER.

(** An argument of a log line.  The text of [errorCode.message()] belongs to
    the error category and is kept symbolic. *)
Inductive log_arg : Type :=
| arg_string (s : string)
| arg_int (z : Z)
| arg_error_message (ec : error_code).

Record log_line : Type := LogLine {
  level : log_level;
  channel : log_filter;
  format : string;
  args : list log_arg
}.

Inductive event : Type :=
| ev_log (l : log_line)
| ev_lock_w
| ev_unlock_w
| ev_socket_shutdown (what : shutdown_type)
| ev_socket_close
| ev_async_read_some (size : Z)
| ev_async_write (data : list Byte.byte)
| ev_dispatch.

(** ** The monad of session member functions *)

Inductive outcome (A : Type) : Type :=
| Returned (a : A)
| Thrown (e : exception)
| Terminated
| OutOfFuel.

Arguments Returned {A} a.
Arguments Thrown {A} e.
Arguments Terminated {A}.
Arguments OutOfFuel {A}.

Record result (A : Type) : Type := Result {
  out : outcome A;
  final : Session;
  trace : list event
}.

Arguments Result {A} out final trace.
Arguments out {A} r.
Arguments final {A} r.
Arguments trace {A} r.

Definition M (A : Type) : Type := Session -> result A.

Definition ret {A : Type} (a : A) : M A :=
  fun s => Result (Returned a) s [].

(** The trace [tr] followed by the run [r]. *)
Definition prepend {A : Type} (tr : list event) (r : result A) : result A :=
  match r with
  | Result o s tr' => Result o s (tr ++ tr')
  end.

Definition bind {A B : Type} (m : M A) (f : A -> M B) : M B :=
  fun s =>
    match m s with
    | Result (Returned a) s' tr => prepend tr (f a s')
    | Result (Thrown e) s' tr => Result (Thrown e) s' tr
    | Result Terminated s' tr => Result Terminated s' tr
    | Result OutOfFuel s' tr => Result OutOfFuel s' tr
    end.

Notation "x <- m ;; k" := (bind m (fun x => k))
  (at level 61, m at next level, right associativity).
Notation "m ;; k" := (bind m (fun _ => k))
  (at level 61, right associativity).

Definition get : M Session := fun s => Result (Returned s) s [].
Definition put (s' : Session) : M unit := fun _ => Result (Returned tt) s' [].
Definition emit (e : event) : M unit := fun s => Result (Returned tt) s [e].
Definition throw {A : Type} (e : exception) : M A := fun s => Result (Thrown e) s [].

(** [try { body } catch (...) { handler }]: [handler e] is [None] when no
    catch clause matches the thrown object, which then keeps propagating. *)
Definition try_catch {A : Type} (body : M A) (handler : exception -> option (M A)) : M A :=
  fun s =>
    match body s with
    | Result (Thrown e) s' tr =>
        match handler e with
        | Some h => prepend tr (h s')
        | None => Result (Thrown e) s' tr
        end
    | r => r
    end.

(** A [noexcept] function: an exception that would leave it calls
    [std::terminate] instead. *)
Definition noexcept {A : Type} (body : M A) : M A :=
  fun s =>
    match body s with
    | Result (Thrown _) s' tr => Result Terminated s' tr
    | r => r
    end.

(** Modelled from the spec: the macro LOCK_W and the class SlimRWLock are
    missing; the lock is taken in writer mode at the declaration and released
    when the enclosing scope is left, by fall-through, [return] or unwinding. *)
Definition LOCK_W {A : Type} (scope : M A) : M A :=
  fun s =>
    match scope s with
    | Result (Returned a) s' tr => Result (Returned a) s' (ev_lock_w :: tr ++ [ev_unlock_w])
    | Result (Thrown e) s' tr => Result (Thrown e) s' (ev_lock_w :: tr ++ [ev_unlock_w])
    | Result Terminated s' tr => Result Terminated s' (ev_lock_w :: tr)
    | Result OutOfFuel s' tr => Result OutOfFuel s' (ev_lock_w :: tr)
    end.

Definition LOG_INFO (f : log_filter) (fmt : string) (a : list log_arg) : M unit :=
  emit (ev_log (LogLine LEVEL_INFO f fmt a)).

Definition LOG_ERROR (f : log_filter) (fmt : string) (a : list log_arg) : M unit :=
  emit (ev_log (LogLine LEVEL_ERROR f fmt a)).

(** *** Accessors of the members *)

Definition get_socket : M socket := s <- get ;; ret (_socket s).
Definition get_recvBuffer : M PacketBuffer := s <- get ;; ret (_recvBuffer s).
Definition get_sendBuffer : M PacketBuffer := s <- get ;; ret (_sendBuffer s).

Definition set_socket (k : socket) : M unit :=
  s <- get ;; put (MkSession k (_recvBuffer s) (_sendBuffer s)).
Definition set_recvBuffer (b : PacketBuffer) : M unit :=
  s <- get ;; put (MkSession (_socket s) b (_sendBuffer s)).
Definition set_sendBuffer (b : PacketBuffer) : M unit :=
  s <- get ;; put (MkSession (_socket s) (_recvBuffer s) b).

(** *** Socket member functions *)

Definition socket_is_open : M bool := k <- get_socket ;; ret (is_open k).

(** [_socket.local_endpoint()]; the session asks it of an open socket only,
    whose local name the operating system has on record. *)
Definition socket_local_endpoint : M endpoint := k <- get_socket ;; ret (local_endpoint k).

(** [_socket.remote_endpoint()], the throwing overload: throws [system_error]
    when the operating system does not know the peer, as on a connection
    that is gone. *)
Definition socket_remote_endpoint : M endpoint :=
  k <- get_socket ;;
  if failed (remote_endpoint_status k) then throw (system_error (remote_endpoint_status k))
  else ret (remote_endpoint k).

(** [_socket.shutdown(what)]: the mode is handed to the operating system;
    throws [system_error] when it reports a failure. *)
Definition socket_shutdown (what : shutdown_type) : M unit :=
  k <- get_socket ;;
  emit (ev_socket_shutdown what) ;;
  if failed (shutdown_status k what) then throw (system_error (shutdown_status k what))
  else ret tt.

(** [_socket.close()]: the descriptor is released even when the call reports
    an error, which is then thrown as [system_error]. *)
Definition socket_close : M unit :=
  k <- get_socket ;;
  emit ev_socket_close ;;
  set_socket (Socket false (local_endpoint k) (remote_endpoint k)
                     (remote_endpoint_status k) (shutdown_status k) (close_status k)) ;;
  if failed (close_status k) then throw (system_error (close_status k))
  else ret tt.

Definition async_read_some (size : Z) : M unit := emit (ev_async_read_some size).
Definition async_write (data : list Byte.byte) : M unit := emit (ev_async_write data).

(** ** Session::Shutdown *)

Definition Shutdown (shutdownType : shutdown_type) : M unit :=
  noexcept (
    open <- socket_is_open ;;
    if negb open then ret tt
    else
      local <- socket_local_endpoint ;;
      LOG_INFO LOG_FILTER_SERVER "Session is disconnected({}). ip: {}, port: {}"
        [arg_string (GetShutdownTypeString shutdownType);
         arg_string (address local); arg_int (port local)] ;;
      try_catch
        (socket_shutdown shutdownType ;; socket_close)
        (fun e =>
           match e with
           | thrown_error_code errorCode =>
               Some (LOG_ERROR LOG_FILTER_SERVER
                       "Session fail to close socket. error_code: {}, error_message: {}"
                       [arg_int (value errorCode); arg_error_message errorCode])
           | system_error _ => None
           end)).

(** ** Session::PostWrite *)

Definition PostWrite : M unit :=
  LOCK_W (
    open <- socket_is_open ;;
    if negb open then
      LOG_ERROR LOG_FILTER_CONNECTION "Fail to PostWrite. socket is closed." []
    else
      sendBuffer <- get_sendBuffer ;;
      if IsEmptyData sendBuffer then ret tt
      else async_write (GetBuffer sendBuffer)).

(** The completion handler handed to [async_write].  The inner block holds
    the lock; it yields [true] when control falls out of the block, that is
    when [PostWrite] has to be called again, and [false] on each [return]. *)
Definition PostWrite_completion (errorCode : error_code) (bytes_transferred : Z) : M unit :=
  rearm <- LOCK_W (
    open <- socket_is_open ;;
    if negb open then
      LOG_ERROR LOG_FILTER_CONNECTION "Fail to PostWrite. Session is disconnected." [] ;;
      ret false
    else
      remoteEndPoint <- socket_remote_endpoint ;;
      if failed errorCode || (bytes_transferred =? 0) then
        shutdownType <-
          (if error_code_eqb errorCode asio_error.eof
              || error_code_eqb errorCode asio_error.connection_reset then
             LOG_INFO LOG_FILTER_CONNECTION "Disconnected. address: {}, port: {}"
               [arg_string (address remoteEndPoint); arg_int (port remoteEndPoint)] ;;
             ret shutdown_both
           else if error_code_eqb errorCode asio_error.connection_aborted then
             LOG_INFO LOG_FILTER_CONNECTION "Connection aborted. address: {}, port: {}"
               [arg_string (address remoteEndPoint); arg_int (port remoteEndPoint)] ;;
             ret shutdown_send
           else if bytes_transferred =? 0 then
             LOG_INFO LOG_FILTER_CONNECTION
               "Disconnected. 0 bytes transferred. address: {}, port: {}"
               [arg_string (address remoteEndPoint); arg_int (port remoteEndPoint)] ;;
             ret shutdown_send
           else
             LOG_ERROR LOG_FILTER_CONNECTION
               "Connection send error. error_code: {}, error_message: {}, address: {}, port: {}"
               [arg_int (value errorCode); arg_error_message errorCode;
                arg_string (address remoteEndPoint); arg_int (port remoteEndPoint)] ;;
             ret shutdown_send) ;;
        Shutdown shutdownType ;;
        ret false
      else
        sendBuffer <- get_sendBuffer ;;
        set_sendBuffer (TruncateBuffer (uint16 bytes_transferred) sendBuffer) ;;
        sendBuffer <- get_sendBuffer ;;
        if IsEmptyData sendBuffer then
          set_sendBuffer (ReArrange sendBuffer) ;;
          ret false
        else ret true) ;;
  if rearm then PostWrite else ret tt.

(** ** Session::SendPacket *)

Definition SendPacket (packet : list Byte.byte) : M bool :=
  queued <- LOCK_W (
    sendBuffer <- get_sendBuffer ;;
    let (ok, sendBuffer') := SetPacket packet sendBuffer in
    set_sendBuffer sendBuffer' ;;
    if negb ok then
      LOG_ERROR LOG_FILTER_PACKET_BUFFER "Fail to SetPacket()." [] ;;
      ret false
    else ret true) ;;
  if queued then PostWrite ;; ret true else ret false.

(** ** The read loop *)

Section ReadLoop.

(** Modelled from the spec: the wire framing and the receive-chunk floor
    belong to PacketBuffer, which is missing; a packet is a fixed header
    carrying a length and an opcode, followed by the payload. *)
Variable header_size : Z.
Variable payload_length : list Byte.byte -> Z.
Variable packet_no : list Byte.byte -> Z.
Variable receive_floor : Z.

(** [_s_packet_handler_manager.Handle(session, _recvBuffer)]: the dispatch
    table lives in packet_handler_manager.h; it may do anything to the
    session it is handed. *)
Variable Handle : M bool.

(** Modelled from the spec: PacketBuffer::IsNotEnoughBuffer is missing; the
    buffer is low on space when its remaining capacity falls below the
    receive-chunk floor. *)
Definition IsNotEnoughBuffer (b : PacketBuffer) : bool :=
  GetRemainSize b <? receive_floor.

(** Modelled from the spec: PacketBuffer::IsAbleToGetPacket is missing; a
    packet is ready iff header-size plus the payload length declared in the
    header lie in [readCursor, writeCursor). *)
Definition IsAbleToGetPacket (b : PacketBuffer) : bool :=
  (header_size <=? GetBufferSize b)
  && (header_size + payload_length (GetBuffer b) <=? GetBufferSize b).

(** Modelled from the spec: PacketBuffer::GetPacketNo is missing; the
    opcode field of the packet at the read cursor. *)
Definition GetPacketNo (b : PacketBuffer) : Z := packet_no (GetBuffer b).

(** *** Session::PostReceive *)

Definition PostReceive : M bool :=
  open <- socket_is_open ;;
  if negb open then
    LOG_ERROR LOG_FILTER_CONNECTION "Fail to PostReceive. Session is disconnected." [] ;;
    ret false
  else
    recvBuffer <- get_recvBuffer ;;
    (if IsNotEnoughBuffer recvBuffer then set_recvBuffer (ReArrange recvBuffer)
     else ret tt) ;;
    recvBuffer <- get_recvBuffer ;;
    async_read_some (size_t (GetRemainSize recvBuffer)) ;;
    ret true.

(** The [while (_recvBuffer.IsAbleToGetPacket())] loop of the completion
    handler, by fuel.  It yields [true] when the loop is left by its
    condition and [false] when it is left by the [return] of the failure
    branch. *)
Fixpoint drain (fuel : nat) : M bool :=
  match fuel with
  | O => fun s => Result OutOfFuel s []
  | S fuel' =>
      recvBuffer <- get_recvBuffer ;;
      if IsAbleToGetPacket recvBuffer then
        emit ev_dispatch ;;
        handled <- Handle ;;
        if negb handled then
          recvBuffer <- get_recvBuffer ;;
          LOG_ERROR LOG_FILTER_CONNECTION "Receive Handler failed. packetNumber: {}"
            [arg_int (GetPacketNo recvBuffer)] ;;
          Shutdown shutdown_receive ;;
          ret false
        else drain fuel'
      else ret true
  end.

(** The completion handler handed to [async_read_some]. *)
Definition PostReceive_completion (fuel : nat)
    (errorCode : error_code) (bytes_transferred : Z) : M unit :=
  open <- socket_is_open ;;
  if negb open then
    LOG_ERROR LOG_FILTER_CONNECTION "Fail to PostReceive. Session is disconnected." []
  else
    remoteEndPoint <- socket_remote_endpoint ;;
    if failed errorCode || (bytes_transferred =? 0) then
      shutdownType <-
        (if error_code_eqb errorCode asio_error.eof
            || error_code_eqb errorCode asio_error.connection_reset then
           LOG_INFO LOG_FILTER_CONNECTION "Disconnected. address: {}, port: {}"
             [arg_string (address remoteEndPoint); arg_int (port remoteEndPoint)] ;;
           ret shutdown_both
         else if error_code_eqb errorCode asio_error.connection_aborted then
           LOG_INFO LOG_FILTER_CONNECTION "Connection aborted. address: {}, port: {}"
             [arg_string (address remoteEndPoint); arg_int (port remoteEndPoint)] ;;
           ret shutdown_receive
         else if bytes_transferred =? 0 then
           LOG_INFO LOG_FILTER_CONNECTION
             "Disconnected. 0 bytes transferred. address: {}, port: {}"
             [arg_string (address remoteEndPoint); arg_int (port remoteEndPoint)] ;;
           ret shutdown_receive
         else
           LOG_ERROR LOG_FILTER_CONNECTION
             "Connection receive error. error_code: {}, error_message: {}, address: {}, port: {}"
             [arg_int (value errorCode); arg_error_message errorCode;
              arg_string (address remoteEndPoint); arg_int (port remoteEndPoint)] ;;
           ret shutdown_receive) ;;
      Shutdown shutdownType
    else
      recvBuffer <- get_recvBuffer ;;
      let (ok, recvBuffer') := AppendWriteSize (uint16 bytes_transferred) recvBuffer in
      set_recvBuffer recvBuffer' ;;
      if negb ok then
        LOG_ERROR LOG_FILTER_CONNECTION
          "Receive buffer error. recvBuffer remain size: {}, bytes_transferred: {}"
          [arg_int (GetRemainSize recvBuffer'); arg_int bytes_transferred] ;;
        Shutdown shutdown_receive
      else
        drained <- drain fuel ;;
        if drained then PostReceive ;; ret tt else ret tt.

(** *** Reading the drain loop *)

(** The line written when the handler refuses a packet; the packet number is
    read from the receive buffer as the handler left it. *)
Definition handler_failed_line (b : PacketBuffer) : log_line :=
  LogLine LEVEL_ERROR LOG_FILTER_CONNECTION "Receive Handler failed. packetNumber: {}"
    [arg_int (GetPacketNo b)].

(** [dispatched k s s' tr]: from [s], [k] packets in a row were ready and
    accepted by the handler, one at a time, leaving [s'] and the trace [tr]. *)
Inductive dispatched : nat -> Session -> Session -> list event -> Prop :=
| dispatched_O s : dispatched O s s []
| dispatched_S k s s1 s2 tr1 tr2 :
    IsAbleToGetPacket (_recvBuffer s) = true ->
    Handle s = Result (Returned true) s1 tr1 ->
    dispatched k s1 s2 tr2 ->
    dispatched (S k) s s2 (ev_dispatch :: tr1 ++ tr2).

End ReadLoop.

(** ** Reading a trace *)

(** The asynchronous operations posted to the reactor. *)
Definition is_io (e : event) : bool :=
  match e with
  | ev_async_read_some _ | ev_async_write _ => true
  | _ => false
  end.

Definition posted (tr : list event) : list event := filter is_io tr.

(** The modes handed to [_socket.shutdown], in order. *)
Fixpoint shutdown_requests (tr : list event) : list shutdown_type :=
  match tr with
  | [] => []
  | ev_socket_shutdown what :: tr' => what :: shutdown_requests tr'
  | _ :: tr' => shutdown_requests tr'
  end.

Fixpoint log_lines (tr : list event) : list log_line :=
  match tr with
  | [] => []
  | ev_log l :: tr' => l :: log_lines tr'
  | _ :: tr' => log_lines tr'
  end.

(** Calls of [_socket.close]: the open-to-closed transitions of the socket. *)
Fixpoint socket_closes (tr : list event) : nat :=
  match tr with
  | [] => O
  | ev_socket_close :: tr' => S (socket_closes tr')
  | _ :: tr' => socket_closes tr'
  end.

(** Invocations of the packet handler. *)
Fixpoint dispatches (tr : list event) : nat :=
  match tr with
  | [] => O
  | ev_dispatch :: tr' => S (dispatches tr')
  | _ :: tr' => dispatches tr'
  end.

Definition is_error_line (l : log_line) : bool :=
  match level l with
  | LEVEL_ERROR => true
  | LEVEL_INFO => false
  end.

(** A log line that carries the value and the message of [ec]. *)
Definition log_arg_names (ec : error_code) (a : log_arg) : bool :=
  match a with
  | arg_error_message ec' => error_code_eqb ec ec'
  | _ => false
  end.

Definition logs_error_code (ec : error_code) (l : log_line) : bool :=
  existsb (log_arg_names ec) (args l).

(** The session with one member replaced. *)
Definition with_recvBuffer (s : Session) (b : PacketBuffer) : Session :=
  MkSession (_socket s) b (_sendBuffer s).
Definition with_sendBuffer (s : Session) (b : PacketBuffer) : Session :=
  MkSession (_socket s) (_recvBuffer s) b.

(** The operating system will accept [shutdown] for the mode [what], and
    [close]. *)
Definition os_healthy (what : shutdown_type) (k : socket) : bool :=
  negb (failed (shutdown_status k what)) && negb (failed (close_status k)).

(** [SendPacket] called for each packet of a list, in order. *)
Fixpoint SendPackets (packets : list (list Byte.byte)) : M (list bool) :=
  match packets with
  | [] => ret []
  | p :: rest =>
      r <- SendPacket p ;;
      rs <- SendPackets rest ;;
      ret (r :: rs)
  end.

(** What [SetPacket] answers to each packet of a list queued in order. *)
Fixpoint queue_results (packets : list (list Byte.byte)) (b : PacketBuffer) : list bool :=
  match packets with
  | [] => []
  | p :: rest => fst (SetPacket p b) :: queue_results rest (snd (SetPacket p b))
  end.

(** ** Sample sessions *)

Definition peer : endpoint := Endpoint "192.0.2.7" 51000.
Definition here : endpoint := Endpoint "192.0.2.1" 9000.

Definition socket_open : socket :=
  Socket true here peer asio_error.success (fun _ => asio_error.success) asio_error.success.

(** An open socket whose peer is gone: the operating system answers
    not-connected to the query of the remote endpoint and to [shutdown]. *)
Definition socket_peer_gone : socket :=
  Socket true here peer asio_error.not_connected (fun _ => asio_error.not_connected)
    asio_error.success.

Definition empty_buffer : PacketBuffer := Buffer (repeat Byte.x00 8) 8 0 0.

(** Three bytes queued in a buffer of eight. *)
Definition three_pending : PacketBuffer :=
  Buffer [Byte.x04; Byte.x00; Byte.x2a; Byte.x00; Byte.x00; Byte.x00; Byte.x00; Byte.x00] 8 0 3.

Definition session_open : Session := MkSession socket_open empty_buffer three_pending.
Definition session_peer_gone : Session := MkSession socket_peer_gone empty_buffer three_pending.

(** A send buffer of 70000 bytes, all of them queued. *)
Definition large_pending : PacketBuffer := Buffer (repeat Byte.x01 (Z.to_nat 70000)) 70000 0 70000.
Definition session_large : Session := MkSession socket_open empty_buffer large_pending.

(** A framing for the samples: a four byte header, the first byte the payload
    length and the third the opcode. *)
Definition sample_header_size : Z := 4.
Definition sample_payload_length (bytes : list Byte.byte) : Z :=
  match bytes with
  | b :: _ => Z.of_N (Byte.to_N b)
  | [] => 0
  end.
Definition sample_packet_no (bytes : list Byte.byte) : Z :=
  match bytes with
  | _ :: _ :: b :: _ => Z.of_N (Byte.to_N b)
  | _ => 0
  end.
Definition sample_receive_floor : Z := 2.

(** A handler that refuses every packet and leaves the session alone. *)
Definition refuse : M bool := ret false.

(** Five bytes are about to arrive in an empty receive buffer. *)
Definition arriving : PacketBuffer :=
  Buffer [Byte.x01; Byte.x00; Byte.x2a; Byte.x00; Byte.xff; Byte.x00; Byte.x00; Byte.x00] 8 0 0.
Definition session_arriving : Session := MkSession socket_open arriving three_pending.

(** A receive buffer that holds one ready packet: header 01 00 2a 00 and one
    byte of payload. *)
Definition one_ready : PacketBuffer :=
  Buffer [Byte.x01; Byte.x00; Byte.x2a; Byte.x00; Byte.xff; Byte.x00; Byte.x00; Byte.x00] 8 0 5.

(** The line [Shutdown] writes when it finds the socket open. *)
Definition disconnect_line (shutdownType : shutdown_type) (k : socket) : log_line :=
  LogLine LEVEL_INFO LOG_FILTER_SERVER "Session is disconnected({}). ip: {}, port: {}"
    [arg_string (GetShutdownTypeString shutdownType);
     arg_string (address (local_endpoint k)); arg_int (port (local_endpoint k))].

(** The socket once [close] has run. *)
Definition closed (k : socket) : socket :=
  Socket false (local_endpoint k) (remote_endpoint k) (remote_endpoint_status k)
    (shutdown_status k) (close_status k).

(** ** Session::~Session *)

(** The destructor calls [Shutdown] with its default argument. *)
Definition Session_destructor : M unit := Shutdown shutdown_both.

(** ** The entry points of a session *)

(** What can run on a session: the member functions, and the two completion
    handlers when the reactor delivers a result. *)
Inductive call : Type :=
| call_Shutdown (shutdownType : shutdown_type)
| call_destructor
| call_PostReceive
| call_PostReceive_completion (errorCode : error_code) (bytes_transferred : Z)
| call_PostWrite
| call_PostWrite_completion (errorCode : error_code) (bytes_transferred : Z)
| call_SendPacket (packet : list Byte.byte).

(** The calls that belong to the write side, with [Shutdown]. *)
Definition write_side (c : call) : bool :=
  match c with
  | call_PostReceive | call_PostReceive_completion _ _ => false
  | _ => true
  end.

Section EntryPoints.

Variable header_size : Z.
Variable payload_length : list Byte.byte -> Z.
Variable packet_no : list Byte.byte -> Z.
Variable receive_floor : Z.
Variable Handle : M bool.

(** One call, its result dropped. *)
Definition run_call (fuel : nat) (c : call) : M unit :=
  match c with
  | call_Shutdown shutdownType => Shutdown shutdownType
  | call_destructor => Session_destructor
  | call_PostReceive => PostReceive receive_floor ;; ret tt
  | call_PostReceive_completion errorCode bytes_transferred =>
      PostReceive_completion header_size payload_length packet_no receive_floor Handle
        fuel errorCode bytes_transferred
  | call_PostWrite => PostWrite
  | call_PostWrite_completion errorCode bytes_transferred =>
      PostWrite_completion errorCode bytes_transferred
  | call_SendPacket packet => SendPacket packet ;; ret tt
  end.

(** Calls one after the other. *)
Fixpoint run_calls (fuel : nat) (cs : list call) : M unit :=
  match cs with
  | [] => ret tt
  | c :: rest => run_call fuel c ;; run_calls fuel rest
  end.

End EntryPoints.

(** ** The lock, read off a trace *)

(** [lock_discipline held tr]: whether the lock is held after [tr], starting
    from [held]; [None] when the trace takes the lock while it is held,
    releases it while it is free, or posts a write while it is free. *)
Fixpoint lock_discipline (held : bool) (tr : list event) : option bool :=
  match tr with
  | [] => Some held
  | ev_lock_w :: tr' => if held then None else lock_discipline true tr'
  | ev_unlock_w :: tr' => if held then lock_discipline false tr' else None
  | ev_async_write _ :: tr' => if held then lock_discipline held tr' else None
  | _ :: tr' => lock_discipline held tr'
  end.

(** ** Buffers in good shape *)

(** The cursors are ordered inside the capacity and the storage has the
    capacity's length. *)
Definition well_formed (b : PacketBuffer) : Prop :=
  0 <= readCursor b /\ readCursor b <= writeCursor b /\ writeCursor b <= capacity b /\
  Z.of_nat (length (storage b)) = capacity b.

(** The line written when the received size does not fit the receive buffer. *)
Definition overrun_line (b : PacketBuffer) (bytes_transferred : Z) : log_line :=
  LogLine LEVEL_ERROR LOG_FILTER_CONNECTION
    "Receive buffer error. recvBuffer remain size: {}, bytes_transferred: {}"
    [arg_int (GetRemainSize b); arg_int bytes_transferred].

(** A handler that throws. *)
Definition throwing : M bool := throw (system_error asio_error.operation_aborted).

(** A full receive buffer: eight bytes of eight written. *)
Definition full_buffer : PacketBuffer := Buffer (repeat Byte.x07 8) 8 0 8.
Definition session_full : Session := MkSession socket_open full_buffer three_pending.

(** The receive buffer of [arriving] once three bytes are in: no packet yet. *)
Definition three_arrived : PacketBuffer :=
  Buffer [Byte.x01; Byte.x00; Byte.x2a; Byte.x00; Byte.xff; Byte.x00; Byte.x00; Byte.x00] 8 0 3.

(** A handler for the sample framing that takes the packet at the read
    cursor out of the receive buffer and then answers [accept] of its
    packet number. *)
Definition sample_consume (accept : Z -> bool) : M bool :=
  recvBuffer <- get_recvBuffer ;;
  let size := sample_header_size + sample_payload_length (GetBuffer recvBuffer) in
  let number := sample_packet_no (GetBuffer recvBuffer) in
  set_recvBuffer (TruncateBuffer size recvBuffer) ;;
  ret (accept number).

(** Two packets about to arrive in an empty receive buffer of sixteen bytes:
    number 42 with one byte of payload, then number 43 with none. *)
Definition two_arriving : PacketBuffer :=
  Buffer [Byte.x01; Byte.x00; Byte.x2a; Byte.x00; Byte.xff;
          Byte.x00; Byte.x00; Byte.x2b; Byte.x00;
          Byte.x00; Byte.x00; Byte.x00; Byte.x00; Byte.x00; Byte.x00; Byte.x00] 16 0 0.
Definition session_two_arriving : Session := MkSession socket_open two_arriving three_pending.

(** The same buffer once the nine bytes are in. *)
Definition two_ready : PacketBuffer :=
  Buffer (storage two_arriving) 16 0 9.

(** A closed session. *)
Definition socket_closed : socket := closed socket_open.
Definition session_closed : Session := MkSession socket_closed empty_buffer three_pending.

(** ** Reading the completion handlers *)

(** The branch a completion handler takes on an error or on zero bytes
    (session.h 146-174 and 247-274): the line it writes, [error_format]
    being the format of the handler's own error line, and the mode it hands
    to [Shutdown], [own] being the direction of the handler. *)
Definition failure_line (error_format : string) (errorCode : error_code)
    (bytes_transferred : Z) (remoteEndPoint : endpoint) : log_line :=
  if error_code_eqb errorCode asio_error.eof
     || error_code_eqb errorCode asio_error.connection_reset then
    LogLine LEVEL_INFO LOG_FILTER_CONNECTION "Disconnected. address: {}, port: {}"
      [arg_string (address remoteEndPoint); arg_int (port remoteEndPoint)]
  else if error_code_eqb errorCode asio_error.connection_aborted then
    LogLine LEVEL_INFO LOG_FILTER_CONNECTION "Connection aborted. address: {}, port: {}"
      [arg_string (address remoteEndPoint); arg_int (port remoteEndPoint)]
  else if bytes_transferred =? 0 then
    LogLine LEVEL_INFO LOG_FILTER_CONNECTION
      "Disconnected. 0 bytes transferred. address: {}, port: {}"
      [arg_string (address remoteEndPoint); arg_int (port remoteEndPoint)]
  else
    LogLine LEVEL_ERROR LOG_FILTER_CONNECTION error_format
      [arg_int (value errorCode); arg_error_message errorCode;
       arg_string (address remoteEndPoint); arg_int (port remoteEndPoint)].

Definition failure_mode (own : shutdown_type) (errorCode : error_code) : shutdown_type :=
  if error_code_eqb errorCode asio_error.eof
     || error_code_eqb errorCode asio_error.connection_reset then shutdown_both
  else own.

Definition receive_error_format : string :=
  "Connection receive error. error_code: {}, error_message: {}, address: {}, port: {}".
Definition send_error_format : string :=
  "Connection send error. error_code: {}, error_message: {}, address: {}, port: {}".

(** * Facts *)

(** ** The monad *)

Ltac session s :=
  destruct s as [[sk_open sk_local sk_remote sk_peer sk_shutdown sk_close] s_recv s_send];
  cbn [_socket _recvBuffer _sendBuffer is_open local_endpoint remote_endpoint
       remote_endpoint_status shutdown_status close_status] in *.

Ltac unfold_ops :=
  unfold PostWrite_completion, PostReceive_completion, PostWrite, PostReceive, SendPacket,
    Shutdown, LOCK_W, noexcept, try_catch, socket_shutdown, socket_close,
    socket_is_open, socket_local_endpoint, socket_remote_endpoint,
    async_read_some, async_write, LOG_INFO, LOG_ERROR,
    get_socket, get_recvBuffer, get_sendBuffer, set_socket, set_recvBuffer, set_sendBuffer,
    bind, ret, get, put, emit, throw, prepend.

Lemma prepend_nil {A} (r : result A) : prepend [] r = r.
Proof. destruct r; reflexivity. Qed.

Lemma prepend_prepend {A} (a b : list event) (r : result A) :
  prepend a (prepend b r) = prepend (a ++ b) r.
Proof. destruct r; cbn. rewrite app_assoc. reflexivity. Qed.

Lemma trace_prepend {A} tr (r : result A) : trace (prepend tr r) = tr ++ trace r.
Proof. destruct r; reflexivity. Qed.

Lemma final_prepend {A} tr (r : result A) : final (prepend tr r) = final r.
Proof. destruct r; reflexivity. Qed.

Lemma out_prepend {A} tr (r : result A) : out (prepend tr r) = out r.
Proof. destruct r; reflexivity. Qed.

(** A step that returns hands its value, state and trace to the rest. *)
Lemma bind_returned {A B} (m : M A) (f : A -> M B) s a s' tr :
  m s = Result (Returned a) s' tr -> bind m f s = prepend tr (f a s').
Proof. intros E. unfold bind. rewrite E. reflexivity. Qed.

Lemma posted_app (a b : list event) : posted (a ++ b) = posted a ++ posted b.
Proof. unfold posted. apply filter_app. Qed.

(** ** Error codes *)

Lemma error_code_eqb_eq a b : error_code_eqb a b = true <-> a = b.
Proof.
  unfold error_code_eqb. destruct a as [va ca], b as [vb cb]. cbn. split.
  - intros H. apply andb_true_iff in H as [Hv Hc]. apply Z.eqb_eq in Hv. subst.
    destruct ca, cb; try discriminate; reflexivity.
  - intros H. injection H as -> ->. rewrite Z.eqb_refl. destruct cb; reflexivity.
Qed.

(** An error code that holds no failure is none of the named constants. *)
Lemma failed_false_not_named ec :
  failed ec = false ->
  error_code_eqb ec asio_error.eof = false /\
  error_code_eqb ec asio_error.connection_reset = false /\
  error_code_eqb ec asio_error.connection_aborted = false.
Proof.
  unfold failed, error_code_eqb. intros H. apply negb_false_iff in H.
  apply Z.eqb_eq in H. rewrite H. cbn. auto.
Qed.

(** ** Shutdown *)

Lemma Shutdown_closed s m :
  is_open (_socket s) = false -> Shutdown m s = Result (Returned tt) s [].
Proof.
  intros Hc. session s. subst. reflexivity.
Qed.

(** On an open socket: the disconnect line, then [shutdown], then [close]
    unless [shutdown] threw.  No catch clause matches a [system_error], so
    either failure ends in [std::terminate]. *)
Lemma Shutdown_open s m :
  is_open (_socket s) = true ->
  Shutdown m s =
    if failed (shutdown_status (_socket s) m) then
      Result Terminated s [ev_log (disconnect_line m (_socket s)); ev_socket_shutdown m]
    else
      Result (if failed (close_status (_socket s)) then Terminated else Returned tt)
             (MkSession (closed (_socket s)) (_recvBuffer s) (_sendBuffer s))
             [ev_log (disconnect_line m (_socket s)); ev_socket_shutdown m; ev_socket_close].
Proof.
  intros Ho. session s. subst.
  unfold Shutdown, noexcept, try_catch, bind, socket_shutdown, socket_close. cbn.
  destruct (failed (sk_shutdown m)) eqn:Hs; cbn.
  - reflexivity.
  - destruct (failed sk_close) eqn:Hcl; cbn; reflexivity.
Qed.

(** Had the socket thrown a bare [error_code], the catch clause would have
    logged it and let [Shutdown] return: the clause is written for a type
    the socket does not throw. *)
Lemma catch_clause_takes_error_code_only (ec : error_code) (s : Session) :
  let clause := fun e =>
    match e with
    | thrown_error_code errorCode =>
        Some (LOG_ERROR LOG_FILTER_SERVER
                "Session fail to close socket. error_code: {}, error_message: {}"
                [arg_int (value errorCode); arg_error_message errorCode])
    | system_error _ => None
    end in
  out (noexcept (try_catch (throw (thrown_error_code ec)) clause) s) = Returned tt /\
  out (noexcept (try_catch (throw (system_error ec)) clause) s) = Terminated.
Proof. split; reflexivity. Qed.

Lemma Shutdown_returns_closed s m s1 tr1 :
  Shutdown m s = Result (Returned tt) s1 tr1 ->
  is_open (_socket s1) = false /\
  socket_closes tr1 = (if is_open (_socket s) then 1 else 0)%nat.
Proof.
  destruct (is_open (_socket s)) eqn:Ho.
  - rewrite (Shutdown_open s m Ho).
    destruct (failed (shutdown_status (_socket s) m)); [discriminate|].
    destruct (failed (close_status (_socket s))); [discriminate|].
    intros H. injection H as <- <-. split; reflexivity.
  - rewrite (Shutdown_closed s m Ho). intros H. injection H as <- <-.
    split; [exact Ho | reflexivity].
Qed.

(** [Shutdown] posts nothing, dispatches nothing, and asks the socket for
    its own mode when it finds it open. *)
Lemma Shutdown_quiet m s :
  posted (trace (Shutdown m s)) = [] /\ dispatches (trace (Shutdown m s)) = O /\
  shutdown_requests (trace (Shutdown m s)) = (if is_open (_socket s) then [m] else []).
Proof.
  destruct (is_open (_socket s)) eqn:Ho.
  - rewrite (Shutdown_open s m Ho).
    destruct (failed (shutdown_status (_socket s) m)); cbn; auto.
  - rewrite (Shutdown_closed s m Ho). cbn. auto.
Qed.

(** [Shutdown] followed by [return]: the value returned is the one given. *)
Lemma Shutdown_then_ret {A} m (a : A) s :
  trace ((Shutdown m ;; ret a) s) = trace (Shutdown m s) /\
  final ((Shutdown m ;; ret a) s) = final (Shutdown m s) /\
  (forall b, out ((Shutdown m ;; ret a) s) = Returned b -> b = a).
Proof.
  unfold bind. destruct (Shutdown m s) as [[[]| | |] sf tf]; cbn;
    rewrite ?app_nil_r; repeat split; intros b H; try discriminate.
  injection H as <-. reflexivity.
Qed.

(** C3. The specification has every error met while shutting down or
    closing the socket logged and swallowed, and [Shutdown] completing
    normally.  The code does not do so: on an open socket for which the
    operating system reports a failure of [shutdown] or of [close], the
    thrown [system_error] passes the [catch (const error_code&)] clause, the
    function being [noexcept] the program terminates, no error line is
    written, and after a failed [shutdown] the socket has not been closed. *)
Theorem Shutdown_socket_error_terminates (s : Session) (shutdownType : shutdown_type) :
  is_open (_socket s) = true ->
  os_healthy shutdownType (_socket s) = false ->
  let r := Shutdown shutdownType s in
  out r = Terminated /\
  existsb is_error_line (log_lines (trace r)) = false /\
  (failed (shutdown_status (_socket s) shutdownType) = true ->
   is_open (_socket (final r)) = true /\ socket_closes (trace r) = O).
Proof.
  intros Ho Hh r. subst r. rewrite (Shutdown_open s shutdownType Ho).
  unfold os_healthy in Hh.
  destruct (failed (shutdown_status (_socket s) shutdownType)); cbn in *.
  - repeat split; auto.
  - destruct (failed (close_status (_socket s))); cbn in *.
    + repeat split; intros; discriminate.
    + discriminate.
Qed.

(** C5. [Shutdown] is idempotent: on a closed socket it returns at once,
    with no log line, no socket call and no change of the session; when a
    first call returns to its caller the socket is closed, [close] has run
    once if the socket was open and not at all otherwise, and a second call
    with any mode does nothing; the two calls in a row are the first call
    alone.  With no failure pending in the operating system the first call
    on an open socket does return, after one disconnect line, one
    [shutdown] and one [close]. *)
Theorem Shutdown_idempotent (s : Session) (m1 m2 : shutdown_type) :
  (is_open (_socket s) = false -> Shutdown m1 s = Result (Returned tt) s []) /\
  (forall s1 tr1, Shutdown m1 s = Result (Returned tt) s1 tr1 ->
     Shutdown m2 s1 = Result (Returned tt) s1 [] /\
     is_open (_socket s1) = false /\
     socket_closes tr1 = (if is_open (_socket s) then 1 else 0)%nat) /\
  (Shutdown m1 ;; Shutdown m2) s = Shutdown m1 s /\
  (is_open (_socket s) = true -> os_healthy m1 (_socket s) = true ->
     exists s1, Shutdown m1 s = Result (Returned tt) s1
                  [ev_log (disconnect_line m1 (_socket s)); ev_socket_shutdown m1;
                   ev_socket_close]).
Proof.
  split; [apply Shutdown_closed|].
  split.
  { intros s1 tr1 H. destruct (Shutdown_returns_closed s m1 s1 tr1 H) as [Hc Hn].
    split; [apply Shutdown_closed; exact Hc | split; assumption]. }
  split.
  { unfold bind. destruct (Shutdown m1 s) as [o s1 tr1] eqn:E; cbn.
    destruct o as [[]| | |]; try reflexivity.
    destruct (Shutdown_returns_closed s m1 s1 tr1 E) as [Hc _].
    rewrite (Shutdown_closed s1 m2 Hc). cbn. rewrite app_nil_r. reflexivity. }
  intros Ho Hh. rewrite (Shutdown_open s m1 Ho). unfold os_healthy in Hh.
  apply andb_true_iff in Hh as [H1 H2].
  apply negb_true_iff in H1, H2. rewrite H1, H2. eexists. reflexivity.
Qed.

(** ** The remote endpoint *)

Lemma socket_remote_endpoint_ok s :
  failed (remote_endpoint_status (_socket s)) = false ->
  socket_remote_endpoint s = Result (Returned (remote_endpoint (_socket s))) s [].
Proof.
  intros H. unfold socket_remote_endpoint, get_socket, bind, get, ret, prepend. cbn.
  rewrite H. reflexivity.
Qed.

(** Both completion handlers ask for the remote endpoint before they look at
    the result.  When the operating system does not know the peer any more
    the query throws and the exception leaves the handler: nothing is
    logged, [Shutdown] is not called, the session is as it was and the
    socket is still open; the write handler releases the lock on the way. *)
Lemma write_completion_peer_unknown (s : Session) (ec : error_code) (n : Z) :
  is_open (_socket s) = true ->
  failed (remote_endpoint_status (_socket s)) = true ->
  PostWrite_completion ec n s =
    Result (Thrown (system_error (remote_endpoint_status (_socket s)))) s
      [ev_lock_w; ev_unlock_w].
Proof.
  intros Ho Hp. session s. subst. unfold_ops. cbn. rewrite Hp. reflexivity.
Qed.

(** ** The write loop *)

(** A successful completion: the send buffer is truncated by the narrowed
    size; empty, it is compacted inside the lock and nothing else happens;
    otherwise the lock is released and [PostWrite] takes it again to post the
    rest. *)
Lemma write_completion_success (s : Session) (ec : error_code) (n : Z) :
  is_open (_socket s) = true ->
  failed (remote_endpoint_status (_socket s)) = false ->
  failed ec = false ->
  n <> 0 ->
  PostWrite_completion ec n s =
    let sent := TruncateBuffer (uint16 n) (_sendBuffer s) in
    if IsEmptyData sent then
      Result (Returned tt) (with_sendBuffer s (ReArrange sent)) [ev_lock_w; ev_unlock_w]
    else
      Result (Returned tt) (with_sendBuffer s sent)
        [ev_lock_w; ev_unlock_w; ev_lock_w; ev_async_write (GetBuffer sent); ev_unlock_w].
Proof.
  intros Ho Hp Hf Hn. apply Z.eqb_neq in Hn.
  session s. subst. unfold_ops. unfold with_sendBuffer.
  generalize (uint16 n). intros m.
  cbn [_socket _sendBuffer _recvBuffer is_open remote_endpoint remote_endpoint_status negb].
  rewrite Hp, Hf, Hn.
  cbn [orb _socket _sendBuffer _recvBuffer is_open negb app].
  destruct (IsEmptyData (TruncateBuffer m s_send)) eqn:He;
    cbn; rewrite ?He; reflexivity.
Qed.

Lemma uint16_small (n : Z) : 0 <= n < 65536 -> uint16 n = n.
Proof. intros H. unfold uint16. apply Z.mod_small. lia. Qed.

(** C7. On a successful write completion that reports n bytes on a
    connected session, n a size the 16-bit interface of the buffer can
    hold, the read cursor of the send buffer advances by n.  If the buffer
    is then empty it is compacted and nothing is posted; if bytes remain,
    the lock is released first and [PostWrite] then takes it again and posts
    the remaining bytes. *)
Theorem write_success_bookkeeping (s : Session) (ec : error_code) (n : Z) :
  is_open (_socket s) = true ->
  failed (remote_endpoint_status (_socket s)) = false ->
  failed ec = false ->
  0 < n < 65536 ->
  let sent := TruncateBuffer n (_sendBuffer s) in
  readCursor sent = readCursor (_sendBuffer s) + n /\
  writeCursor sent = writeCursor (_sendBuffer s) /\
  PostWrite_completion ec n s =
    if IsEmptyData sent then
      Result (Returned tt) (with_sendBuffer s (ReArrange sent)) [ev_lock_w; ev_unlock_w]
    else
      Result (Returned tt) (with_sendBuffer s sent)
        [ev_lock_w; ev_unlock_w; ev_lock_w; ev_async_write (GetBuffer sent); ev_unlock_w].
Proof.
  intros Ho Hp Hf Hn sent.
  split; [reflexivity|]. split; [reflexivity|].
  assert (Hn0 : n <> 0) by lia.
  rewrite (write_completion_success s ec n Ho Hp Hf Hn0). cbn zeta.
  rewrite (uint16_small n) by lia. reflexivity.
Qed.


(** On a closed socket [SendPacket] answers what [SetPacket] answered and
    posts nothing. *)
Lemma SendPacket_closed (s : Session) (p : list Byte.byte) :
  is_open (_socket s) = false ->
  let r := SendPacket p s in
  out r = Returned (fst (SetPacket p (_sendBuffer s))) /\
  final r = with_sendBuffer s (snd (SetPacket p (_sendBuffer s))) /\
  posted (trace r) = [].
Proof.
  intros Hc. session s. subst. unfold_ops. unfold with_sendBuffer. cbn.
  destruct (SetPacket p s_send) as [[|] b']; cbn; repeat split; reflexivity.
Qed.

Lemma SendPackets_closed (packets : list (list Byte.byte)) :
  forall s, is_open (_socket s) = false ->
  let r := SendPackets packets s in
  out r = Returned (queue_results packets (_sendBuffer s)) /\
  is_open (_socket (final r)) = false /\
  posted (trace r) = [].
Proof.
  induction packets as [|p rest IH]; intros s Hc.
  - cbn. auto.
  - destruct (SendPacket_closed s p Hc) as (Ho & Hf & Hp).
    cbn zeta in *. cbn [SendPackets queue_results].
    destruct (SendPacket p s) as [o1 s1 t1] eqn:E1. cbn [out final trace] in *.
    subst o1 s1.
    rewrite (bind_returned _ _ _ _ _ _ E1).
    assert (Hc' : is_open (_socket (with_sendBuffer s (snd (SetPacket p (_sendBuffer s)))))
                  = false) by exact Hc.
    specialize (IH _ Hc'). cbn zeta in IH. destruct IH as (IHo & IHc & IHp).
    destruct (SendPackets rest _) as [o2 s2 t2] eqn:E2. cbn [out final trace] in *.
    subst o2.
    rewrite (bind_returned _ _ _ _ _ _ E2).
    cbn. rewrite app_nil_r, posted_app, Hp, IHp.
    repeat split; auto.
Qed.

(** The write completion that reports connection_reset, the peer still
    known to the operating system: the disconnect line, then [Shutdown] for
    both directions, inside the lock. *)
Lemma write_completion_reset (s : Session) (n : Z) :
  is_open (_socket s) = true ->
  failed (remote_endpoint_status (_socket s)) = false ->
  let line :=
    LogLine LEVEL_INFO LOG_FILTER_CONNECTION "Disconnected. address: {}, port: {}"
      [arg_string (address (remote_endpoint (_socket s)));
       arg_int (port (remote_endpoint (_socket s)))] in
  let after := MkSession (closed (_socket s)) (_recvBuffer s) (_sendBuffer s) in
  PostWrite_completion asio_error.connection_reset n s =
    if failed (shutdown_status (_socket s) shutdown_both) then
      Result Terminated s
        [ev_lock_w; ev_log line; ev_log (disconnect_line shutdown_both (_socket s));
         ev_socket_shutdown shutdown_both]
    else if failed (close_status (_socket s)) then
      Result Terminated after
        [ev_lock_w; ev_log line; ev_log (disconnect_line shutdown_both (_socket s));
         ev_socket_shutdown shutdown_both; ev_socket_close]
    else
      Result (Returned tt) after
        [ev_lock_w; ev_log line; ev_log (disconnect_line shutdown_both (_socket s));
         ev_socket_shutdown shutdown_both; ev_socket_close; ev_unlock_w].
Proof.
  intros Ho Hp. cbn zeta. session s. subst. unfold_ops. cbn. rewrite Hp. cbn.
  destruct (failed (sk_shutdown shutdown_both)); cbn; [reflexivity|].
  destruct (failed sk_close); cbn; reflexivity.
Qed.

(** C1, as the code has it.  A write completion reports connection_reset
    on an open session.  When the query of the remote endpoint succeeds the
    handler asks for a shutdown of both directions, and it returns when the
    operating system accepts that shutdown and the close.  Whenever the
    handler has returned the socket is closed, and every later [SendPacket]
    posts no operation and leaves the socket closed; it answers what
    [SetPacket] answered: success when the packet fits in the send buffer,
    failure when it does not.  When the query of the remote endpoint fails
    the exception leaves the handler and the session is as it was. *)
Theorem reset_then_SendPacket (s : Session) (n : Z) (packets : list (list Byte.byte)) :
  is_open (_socket s) = true ->
  let r1 := PostWrite_completion asio_error.connection_reset n s in
  let r2 := SendPackets packets (final r1) in
  (failed (remote_endpoint_status (_socket s)) = false ->
   shutdown_requests (trace r1) = [shutdown_both] /\ posted (trace r1) = []) /\
  (failed (remote_endpoint_status (_socket s)) = false ->
   os_healthy shutdown_both (_socket s) = true -> out r1 = Returned tt) /\
  (out r1 = Returned tt ->
   is_open (_socket (final r1)) = false /\
   out r2 = Returned (queue_results packets (_sendBuffer s)) /\
   posted (trace r2) = [] /\
   is_open (_socket (final r2)) = false) /\
  (failed (remote_endpoint_status (_socket s)) = true ->
   r1 = Result (Thrown (system_error (remote_endpoint_status (_socket s)))) s
          [ev_lock_w; ev_unlock_w]).
Proof.
  intros Ho r1 r2.
  destruct (failed (remote_endpoint_status (_socket s))) eqn:Hp.
  - pose proof (write_completion_peer_unknown s asio_error.connection_reset n Ho Hp) as E.
    fold r1 in E.
    split; [intros H; discriminate H|]. split; [intros H; discriminate H|].
    split; [|intros _; exact E].
    intros Hr. rewrite E in Hr. discriminate Hr.
  - pose proof (write_completion_reset s n Ho Hp) as E. cbn zeta in E. fold r1 in E.
    unfold os_healthy.
    destruct (failed (shutdown_status (_socket s) shutdown_both)) eqn:Hs;
      [|destruct (failed (close_status (_socket s))) eqn:Hc].
    + split; [intros _; rewrite E; split; reflexivity|].
      split; [intros _ H; discriminate H|].
      split; [|intros H; discriminate H].
      intros Hr. rewrite E in Hr. discriminate Hr.
    + split; [intros _; rewrite E; split; reflexivity|].
      split; [intros _ H; discriminate H|].
      split; [|intros H; discriminate H].
      intros Hr. rewrite E in Hr. discriminate Hr.
    + split; [intros _; rewrite E; split; reflexivity|].
      split; [intros _ _; rewrite E; reflexivity|].
      split; [|intros H; discriminate H].
      intros _.
      assert (Hcl : is_open (_socket (final r1)) = false) by (rewrite E; reflexivity).
      destruct (SendPackets_closed packets (final r1) Hcl) as (A & B & C).
      fold r2 in A, B, C.
      assert (Hsb : _sendBuffer (final r1) = _sendBuffer s) by (rewrite E; reflexivity).
      rewrite Hsb in A. repeat split; assumption.
Qed.

(** ** The read loop, and what both completion handlers share *)

Section ReadLoopFacts.

Variable header_size : Z.
Variable payload_length : list Byte.byte -> Z.
Variable packet_no : list Byte.byte -> Z.
Variable receive_floor : Z.
Variable Handle : M bool.

Local Notation read_completion :=
  (PostReceive_completion header_size payload_length packet_no receive_floor Handle).
Local Notation drain_loop := (drain header_size payload_length packet_no Handle).
Local Notation ready := (IsAbleToGetPacket header_size payload_length).
Local Notation rearm := (PostReceive receive_floor).
Local Notation accepted := (dispatched header_size payload_length Handle).
Local Notation failed_line := (handler_failed_line packet_no).

(** *** One turn of the drain loop *)

Lemma drain_ready_accepted fuel s s1 tr1 :
  ready (_recvBuffer s) = true ->
  Handle s = Result (Returned true) s1 tr1 ->
  drain_loop (S fuel) s = prepend (ev_dispatch :: tr1) (drain_loop fuel s1).
Proof.
  intros Hr Hh. cbn [drain].
  rewrite (bind_returned get_recvBuffer _ s (_recvBuffer s) s []) by reflexivity.
  rewrite Hr.
  rewrite (bind_returned (emit ev_dispatch) _ s tt s [ev_dispatch]) by reflexivity.
  rewrite (bind_returned Handle _ s true s1 tr1 Hh).
  cbn [negb]. rewrite !prepend_prepend. reflexivity.
Qed.

Lemma drain_ready_refused fuel s s2 tr2 :
  ready (_recvBuffer s) = true ->
  Handle s = Result (Returned false) s2 tr2 ->
  drain_loop (S fuel) s =
    prepend (ev_dispatch :: tr2 ++ [ev_log (failed_line (_recvBuffer s2))])
      ((Shutdown shutdown_receive ;; ret false) s2).
Proof.
  intros Hr Hh. cbn [drain].
  rewrite (bind_returned get_recvBuffer _ s (_recvBuffer s) s []) by reflexivity.
  rewrite Hr.
  rewrite (bind_returned (emit ev_dispatch) _ s tt s [ev_dispatch]) by reflexivity.
  rewrite (bind_returned Handle _ s false s2 tr2 Hh).
  cbn [negb].
  rewrite (bind_returned get_recvBuffer _ s2 (_recvBuffer s2) s2 []) by reflexivity.
  rewrite (bind_returned (LOG_ERROR _ _ _) _ s2 tt s2
             [ev_log (failed_line (_recvBuffer s2))]) by reflexivity.
  rewrite !prepend_prepend. cbn [app]. rewrite app_nil_r. reflexivity.
Qed.

Lemma drain_not_ready fuel s :
  ready (_recvBuffer s) = false ->
  drain_loop (S fuel) s = Result (Returned true) s [].
Proof.
  intros Hr. cbn [drain].
  rewrite (bind_returned get_recvBuffer _ s (_recvBuffer s) s []) by reflexivity.
  rewrite Hr. reflexivity.
Qed.

(** *** The loop as a whole *)

(** When every ready packet is accepted the loop ends by its condition. *)
Lemma drain_completes k s s1 tr :
  accepted k s s1 tr ->
  forall fuel, ready (_recvBuffer s1) = false -> (k < fuel)%nat ->
  drain_loop fuel s = Result (Returned true) s1 tr.
Proof.
  induction 1 as [s | k s sa sb tra trb Hready Hh Hd IH]; intros fuel Hr Hlt.
  - destruct fuel as [|fuel]; [lia|]. apply drain_not_ready. exact Hr.
  - destruct fuel as [|fuel]; [lia|].
    rewrite (drain_ready_accepted fuel s sa tra Hready Hh).
    rewrite (IH fuel Hr) by lia. reflexivity.
Qed.

(** After k accepted packets, the first refusal ends the loop. *)
Lemma drain_first_failure k s s1 tr :
  accepted k s s1 tr ->
  forall s2 tr2 fuel,
  ready (_recvBuffer s1) = true ->
  Handle s1 = Result (Returned false) s2 tr2 ->
  (k < fuel)%nat ->
  let r := drain_loop fuel s in
  let sd := Shutdown shutdown_receive s2 in
  trace r = tr ++ ev_dispatch :: tr2 ++ ev_log (failed_line (_recvBuffer s2)) :: trace sd /\
  final r = final sd /\
  out r <> Returned true.
Proof.
  induction 1 as [s | k s sa sb tra trb Hready Hh Hd IH]; intros s2 tr2 fuel Hr Hf Hlt.
  - destruct fuel as [|fuel]; [lia|]. cbn zeta.
    rewrite (drain_ready_refused fuel s s2 tr2 Hr Hf).
    destruct (Shutdown_then_ret shutdown_receive false s2) as (Ht & Hfin & Ho).
    rewrite trace_prepend, final_prepend, out_prepend, Ht, Hfin.
    repeat split.
    + cbn [app]. rewrite <- app_assoc. reflexivity.
    + intros E. specialize (Ho true E). discriminate.
  - destruct fuel as [|fuel]; [lia|].
    assert (Hlt' : (k < fuel)%nat) by lia.
    specialize (IH s2 tr2 fuel Hr Hf Hlt'). cbn zeta in IH. destruct IH as (IHt & IHf & IHo).
    cbn zeta. rewrite (drain_ready_accepted fuel s sa tra Hready Hh).
    rewrite trace_prepend, final_prepend, out_prepend, IHt, IHf.
    repeat split; [|exact IHo].
    cbn [app]. rewrite <- app_assoc. reflexivity.
Qed.

(** *** The read completion on success *)

(** The read handler when the operating system does not know the peer. *)
Lemma read_completion_peer_unknown fuel (s : Session) (ec : error_code) (n : Z) :
  is_open (_socket s) = true ->
  failed (remote_endpoint_status (_socket s)) = true ->
  read_completion fuel ec n s =
    Result (Thrown (system_error (remote_endpoint_status (_socket s)))) s [].
Proof.
  intros Ho Hp. unfold PostReceive_completion.
  rewrite (bind_returned socket_is_open _ s true s []) by (cbn; rewrite Ho; reflexivity).
  cbn [negb]. unfold bind at 1.
  unfold socket_remote_endpoint, get_socket, bind, get, ret, throw, prepend. cbn.
  rewrite Hp. reflexivity.
Qed.

(** Once the narrowed size is recorded the handler is the drain loop
    followed, when the loop ends by its condition, by the next read. *)
Lemma read_completion_success fuel s ec n rb :
  is_open (_socket s) = true ->
  failed (remote_endpoint_status (_socket s)) = false ->
  failed ec = false ->
  n <> 0 ->
  AppendWriteSize (uint16 n) (_recvBuffer s) = (true, rb) ->
  read_completion fuel ec n s =
    (drained <- drain_loop fuel ;; if drained then rearm ;; ret tt else ret tt)
      (with_recvBuffer s rb).
Proof.
  intros Ho Hp Hf Hn Ha. apply Z.eqb_neq in Hn.
  unfold PostReceive_completion.
  rewrite (bind_returned socket_is_open _ s true s []) by (cbn; rewrite Ho; reflexivity).
  cbn [negb].
  rewrite (bind_returned _ _ _ _ _ _ (socket_remote_endpoint_ok s Hp)).
  rewrite Hf, Hn. cbn [orb].
  rewrite (bind_returned get_recvBuffer _ s (_recvBuffer s) s []) by reflexivity.
  rewrite Ha.
  rewrite (bind_returned (set_recvBuffer rb) _ s tt (with_recvBuffer s rb) []) by reflexivity.
  cbn [negb]. rewrite !prepend_nil. reflexivity.
Qed.

(** When the narrowed size does not fit: the error line, then [Shutdown] for
    the receive side. *)
Lemma read_completion_overrun fuel s ec n :
  is_open (_socket s) = true ->
  failed (remote_endpoint_status (_socket s)) = false ->
  failed ec = false ->
  n <> 0 ->
  AppendWriteSize (uint16 n) (_recvBuffer s) = (false, _recvBuffer s) ->
  read_completion fuel ec n s =
    prepend [ev_log (overrun_line (_recvBuffer s) n)] (Shutdown shutdown_receive s).
Proof.
  intros Ho Hp Hf Hn Ha. apply Z.eqb_neq in Hn. unfold PostReceive_completion.
  rewrite (bind_returned socket_is_open _ s true s []) by (cbn; rewrite Ho; reflexivity).
  cbn [negb].
  rewrite (bind_returned _ _ _ _ _ _ (socket_remote_endpoint_ok s Hp)).
  rewrite Hf, Hn. cbn [orb].
  rewrite (bind_returned get_recvBuffer _ s (_recvBuffer s) s []) by reflexivity.
  rewrite Ha.
  rewrite (bind_returned (set_recvBuffer (_recvBuffer s)) _ s tt s [])
    by (destruct s; reflexivity).
  cbn [negb].
  rewrite (bind_returned (LOG_ERROR _ _ _) _ s tt s
             [ev_log (overrun_line (_recvBuffer s) n)]) by reflexivity.
  rewrite !prepend_nil. reflexivity.
Qed.

(** X16. In the read completion, once the received size is recorded, the
    ready packets are handed to the handler one at a time; when k packets
    were accepted and the next one is refused, the handler writes the error
    line with the packet number read from the receive buffer as the handler
    left it, calls [Shutdown] for the receive side, and that is all: after
    the refusal nothing is dispatched and no read is posted. *)
Theorem drain_stops_at_first_failure (fuel k : nat) (s0 s1 s2 : Session)
    (ec : error_code) (n : Z) (rb : PacketBuffer) (tr tr2 : list event) :
  is_open (_socket s0) = true ->
  failed (remote_endpoint_status (_socket s0)) = false ->
  failed ec = false ->
  n <> 0 ->
  AppendWriteSize (uint16 n) (_recvBuffer s0) = (true, rb) ->
  accepted k (with_recvBuffer s0 rb) s1 tr ->
  ready (_recvBuffer s1) = true ->
  Handle s1 = Result (Returned false) s2 tr2 ->
  (k < fuel)%nat ->
  let r := read_completion fuel ec n s0 in
  let sd := Shutdown shutdown_receive s2 in
  trace r = tr ++ ev_dispatch :: tr2 ++ ev_log (failed_line (_recvBuffer s2)) :: trace sd /\
  final r = final sd /\
  posted (trace sd) = [] /\
  dispatches (trace sd) = O /\
  shutdown_requests (trace sd) = (if is_open (_socket s2) then [shutdown_receive] else []).
Proof.
  intros Ho Hp Hf Hn Ha Hd Hr Hh Hlt r sd. subst r.
  rewrite (read_completion_success fuel s0 ec n rb Ho Hp Hf Hn Ha).
  destruct (drain_first_failure k _ s1 tr Hd s2 tr2 fuel Hr Hh Hlt) as (Ht & Hfin & Hout).
  cbn zeta in Ht, Hfin, Hout. fold sd in Ht, Hfin.
  destruct (Shutdown_quiet shutdown_receive s2) as (Hq & Hdp & Hsr). fold sd in Hq, Hdp, Hsr.
  destruct (drain_loop fuel (with_recvBuffer s0 rb)) as [o sf tf] eqn:E.
  cbn [out final trace] in Ht, Hfin, Hout. subst tf sf.
  unfold bind. rewrite E.
  destruct o as [[|]| | |]; cbn [out final trace ret prepend]; rewrite ?app_nil_r;
    try (exfalso; apply Hout; reflexivity).
  all: repeat match goal with |- _ /\ _ => split end; try assumption; reflexivity.
Qed.

(** C10. Both completion handlers narrow the reported size to 16 bits
    before the bookkeeping.  On a successful completion of n bytes on a
    connected session the read handler records n mod 2^16: it goes on, with
    the drain loop, from the receive buffer whose write cursor is advanced by
    that much, or reports an overrun when that much does not fit; the write
    handler truncates the send buffer by n mod 2^16 and goes on from there.
    For n of 65536 or more the recorded size is not n. *)
Theorem completion_sizes_narrowed (fuel : nat) (s : Session) (ec : error_code) (n : Z) :
  is_open (_socket s) = true ->
  failed (remote_endpoint_status (_socket s)) = false ->
  failed ec = false ->
  n <> 0 ->
  let recorded := n mod 2 ^ 16 in
  let rb := _recvBuffer s in
  let sb := _sendBuffer s in
  let received :=
    Buffer (storage rb) (capacity rb) (readCursor rb) (writeCursor rb + recorded) in
  let sent :=
    Buffer (storage sb) (capacity sb) (readCursor sb + recorded) (writeCursor sb) in
  read_completion fuel ec n s =
    (if writeCursor rb + recorded <=? capacity rb
     then (drained <- drain_loop fuel ;; if drained then rearm ;; ret tt else ret tt)
            (with_recvBuffer s received)
     else prepend [ev_log (overrun_line rb n)] (Shutdown shutdown_receive s)) /\
  PostWrite_completion ec n s =
    (if IsEmptyData sent then
       Result (Returned tt) (with_sendBuffer s (ReArrange sent)) [ev_lock_w; ev_unlock_w]
     else
       Result (Returned tt) (with_sendBuffer s sent)
         [ev_lock_w; ev_unlock_w; ev_lock_w; ev_async_write (GetBuffer sent); ev_unlock_w]) /\
  (65536 <= n -> recorded <> n).
Proof.
  intros Ho Hp Hf Hn recorded rb sb received sent. split; [|split].
  - destruct (writeCursor rb + recorded <=? capacity rb) eqn:Hfit.
    + apply read_completion_success; try assumption.
      unfold AppendWriteSize, uint16. fold recorded rb. rewrite Hfit. reflexivity.
    + apply read_completion_overrun; try assumption.
      unfold AppendWriteSize, uint16. fold recorded rb. rewrite Hfit. reflexivity.
  - rewrite (write_completion_success s ec n Ho Hp Hf Hn). reflexivity.
  - intros Hbig. subst recorded. pose proof (Z.mod_pos_bound n (2 ^ 16)). lia.
Qed.

(** *** Completions that end the connection *)

(** C9. A completion with no error and zero bytes, on an open session
    whose peer is connected, is a disconnect: the handler writes the
    informational line of a zero byte transfer, then [Shutdown] runs for the
    failing direction only (receive for the read, send for the write) and
    writes its own informational line; no operation is posted. *)
Theorem zero_bytes_is_disconnect (fuel : nat) (s : Session) (ec : error_code) :
  is_open (_socket s) = true ->
  failed (remote_endpoint_status (_socket s)) = false ->
  failed ec = false ->
  let rd := read_completion fuel ec 0 s in
  let wr := PostWrite_completion ec 0 s in
  let zero_line :=
    LogLine LEVEL_INFO LOG_FILTER_CONNECTION
      "Disconnected. 0 bytes transferred. address: {}, port: {}"
      [arg_string (address (remote_endpoint (_socket s)));
       arg_int (port (remote_endpoint (_socket s)))] in
  shutdown_requests (trace rd) = [shutdown_receive] /\
  shutdown_requests (trace wr) = [shutdown_send] /\
  log_lines (trace rd) = [zero_line; disconnect_line shutdown_receive (_socket s)] /\
  log_lines (trace wr) = [zero_line; disconnect_line shutdown_send (_socket s)] /\
  posted (trace rd) = [] /\ posted (trace wr) = [].
Proof.
  intros Ho Hp Hf rd wr zero_line. subst rd wr zero_line.
  destruct (failed_false_not_named ec Hf) as (H1 & H2 & H3).
  session s. subst.
  destruct (failed (sk_shutdown shutdown_receive)) eqn:Er;
  destruct (failed (sk_shutdown shutdown_send)) eqn:Es;
  destruct (failed sk_close) eqn:Ec;
  unfold_ops; cbn; rewrite Hp, Hf, H1, H2, H3; cbn; rewrite ?Er, ?Es; cbn; rewrite ?Ec; cbn;
  repeat split; reflexivity.
Qed.

(** C2, as the code has it.  A completion that reports connection_aborted
    on an open session whose remote endpoint the operating system still
    answers writes the informational line of an aborted connection and shuts
    down the failing direction only: receive for the read, send for the
    write; no operation is posted.  When the query of the remote endpoint
    fails the exception leaves the handler before anything is logged. *)
Theorem connection_aborted_shutdown (fuel : nat) (s : Session) (n : Z) :
  is_open (_socket s) = true ->
  let rd := read_completion fuel asio_error.connection_aborted n s in
  let wr := PostWrite_completion asio_error.connection_aborted n s in
  let aborted_line :=
    LogLine LEVEL_INFO LOG_FILTER_CONNECTION "Connection aborted. address: {}, port: {}"
      [arg_string (address (remote_endpoint (_socket s)));
       arg_int (port (remote_endpoint (_socket s)))] in
  (failed (remote_endpoint_status (_socket s)) = false ->
   shutdown_requests (trace rd) = [shutdown_receive] /\
   shutdown_requests (trace wr) = [shutdown_send] /\
   log_lines (trace rd) = [aborted_line; disconnect_line shutdown_receive (_socket s)] /\
   log_lines (trace wr) = [aborted_line; disconnect_line shutdown_send (_socket s)] /\
   posted (trace rd) = [] /\ posted (trace wr) = []) /\
  (failed (remote_endpoint_status (_socket s)) = true ->
   rd = Result (Thrown (system_error (remote_endpoint_status (_socket s)))) s [] /\
   wr = Result (Thrown (system_error (remote_endpoint_status (_socket s)))) s
          [ev_lock_w; ev_unlock_w]).
Proof.
  intros Ho rd wr aborted_line. subst rd wr aborted_line. split.
  - intros Hp. session s. subst.
    destruct (failed (sk_shutdown shutdown_receive)) eqn:Er;
    destruct (failed (sk_shutdown shutdown_send)) eqn:Es;
    destruct (failed sk_close) eqn:Ec;
    unfold_ops; cbn; rewrite Hp; cbn; rewrite ?Er, ?Es; cbn; rewrite ?Ec; cbn;
    repeat split; reflexivity.
  - intros Hp. split.
    + apply read_completion_peer_unknown; assumption.
    + apply write_completion_peer_unknown; assumption.
Qed.

(** *** Completions that report an error or zero bytes *)

Lemma Shutdown_logs m s :
  is_open (_socket s) = true ->
  log_lines (trace (Shutdown m s)) = [disconnect_line m (_socket s)].
Proof.
  intros Ho. rewrite (Shutdown_open s m Ho).
  destruct (failed (shutdown_status (_socket s) m)); reflexivity.
Qed.

(** The read handler on its failure path: one line, then [Shutdown]. *)
Lemma read_completion_failure fuel s ec n :
  is_open (_socket s) = true ->
  failed (remote_endpoint_status (_socket s)) = false ->
  failed ec || (n =? 0) = true ->
  read_completion fuel ec n s =
    prepend [ev_log (failure_line receive_error_format ec n (remote_endpoint (_socket s)))]
      (Shutdown (failure_mode shutdown_receive ec) s).
Proof.
  intros Ho Hp Hf. unfold PostReceive_completion.
  rewrite (bind_returned socket_is_open _ s true s []) by (cbn; rewrite Ho; reflexivity).
  cbn [negb].
  rewrite (bind_returned _ _ _ _ _ _ (socket_remote_endpoint_ok s Hp)).
  rewrite Hf. rewrite ?prepend_nil.
  unfold failure_line, failure_mode, receive_error_format.
  set (ep := remote_endpoint (_socket s)).
  destruct (error_code_eqb ec asio_error.eof || error_code_eqb ec asio_error.connection_reset);
    [|destruct (error_code_eqb ec asio_error.connection_aborted);
      [|destruct (n =? 0)]].
  all: match goal with
       | |- context [LOG_INFO ?f ?t ?a] =>
           rewrite (bind_returned (LOG_INFO f t a ;; ret _) _ s _ s
                      [ev_log (LogLine LEVEL_INFO f t a)]) by reflexivity
       | |- context [LOG_ERROR ?f ?t ?a] =>
           rewrite (bind_returned (LOG_ERROR f t a ;; ret _) _ s _ s
                      [ev_log (LogLine LEVEL_ERROR f t a)]) by reflexivity
       end; reflexivity.
Qed.

(** The write handler on its failure path, by what the operating system
    answers to [shutdown] and [close]. *)
Lemma write_completion_failure s ec n :
  is_open (_socket s) = true ->
  failed (remote_endpoint_status (_socket s)) = false ->
  failed ec || (n =? 0) = true ->
  let line := failure_line send_error_format ec n (remote_endpoint (_socket s)) in
  let mode := failure_mode shutdown_send ec in
  let after := MkSession (closed (_socket s)) (_recvBuffer s) (_sendBuffer s) in
  PostWrite_completion ec n s =
    if failed (shutdown_status (_socket s) mode) then
      Result Terminated s
        [ev_lock_w; ev_log line; ev_log (disconnect_line mode (_socket s));
         ev_socket_shutdown mode]
    else if failed (close_status (_socket s)) then
      Result Terminated after
        [ev_lock_w; ev_log line; ev_log (disconnect_line mode (_socket s));
         ev_socket_shutdown mode; ev_socket_close]
    else
      Result (Returned tt) after
        [ev_lock_w; ev_log line; ev_log (disconnect_line mode (_socket s));
         ev_socket_shutdown mode; ev_socket_close; ev_unlock_w].
Proof.
  intros Ho Hp Hf. cbn zeta. session s. subst.
  unfold failure_line, failure_mode, send_error_format. unfold_ops.
  destruct (error_code_eqb ec asio_error.eof || error_code_eqb ec asio_error.connection_reset);
  destruct (error_code_eqb ec asio_error.connection_aborted);
  destruct (n =? 0) eqn:En;
  destruct (failed ec) eqn:Ef; try discriminate Hf;
  cbn; rewrite Hp; cbn;
  match goal with |- context [failed (sk_shutdown ?m)] =>
    destruct (failed (sk_shutdown m)) eqn:Es end;
  cbn; rewrite ?Es; cbn; try reflexivity;
  destruct (failed sk_close) eqn:Ec; cbn; rewrite ?Ec; reflexivity.
Qed.

Lemma write_completion_failure_reads s ec n :
  is_open (_socket s) = true ->
  failed (remote_endpoint_status (_socket s)) = false ->
  failed ec || (n =? 0) = true ->
  let r := PostWrite_completion ec n s in
  log_lines (trace r) =
    [failure_line send_error_format ec n (remote_endpoint (_socket s));
     disconnect_line (failure_mode shutdown_send ec) (_socket s)] /\
  shutdown_requests (trace r) = [failure_mode shutdown_send ec] /\
  posted (trace r) = [] /\ dispatches (trace r) = O.
Proof.
  intros Ho Hp Hf. cbn zeta. rewrite (write_completion_failure s ec n Ho Hp Hf). cbn zeta.
  destruct (failed (shutdown_status (_socket s) (failure_mode shutdown_send ec)));
    [|destruct (failed (close_status (_socket s)))]; cbn; auto.
Qed.

Lemma read_completion_failure_reads fuel s ec n :
  is_open (_socket s) = true ->
  failed (remote_endpoint_status (_socket s)) = false ->
  failed ec || (n =? 0) = true ->
  let r := read_completion fuel ec n s in
  log_lines (trace r) =
    [failure_line receive_error_format ec n (remote_endpoint (_socket s));
     disconnect_line (failure_mode shutdown_receive ec) (_socket s)] /\
  shutdown_requests (trace r) = [failure_mode shutdown_receive ec] /\
  posted (trace r) = [] /\ dispatches (trace r) = O.
Proof.
  intros Ho Hp Hf. cbn zeta. rewrite (read_completion_failure fuel s ec n Ho Hp Hf).
  rewrite trace_prepend. cbn [app log_lines shutdown_requests posted filter is_io dispatches].
  rewrite (Shutdown_logs _ s Ho).
  destruct (Shutdown_quiet (failure_mode shutdown_receive ec) s) as (Hq & Hd & Hs).
  rewrite Ho in Hs. fold (posted (trace (Shutdown (failure_mode shutdown_receive ec) s))).
  rewrite Hq, Hd, Hs. auto.
Qed.

(** C4, as the code has it.  A completion that reports an error on an
    open session whose remote endpoint the operating system still answers:
    for eof and connection_reset the informational line of a disconnect is
    written and both directions are shut down; for every other error code
    the shutdown is for the failing direction only.  The error code and its
    message are written, at error severity, when the code is none of eof,
    connection_reset and connection_aborted and at least one byte was
    transferred; connection_aborted, and any other error that completes with
    zero bytes, write an informational line that carries the peer's address
    and no error code.  No operation is posted.  When the query of the
    remote endpoint fails the exception leaves the handler before anything
    is logged or shut down. *)
Theorem transport_error_shutdown_mode (fuel : nat) (s : Session) (ec : error_code) (n : Z) :
  is_open (_socket s) = true ->
  failed ec = true ->
  let rd := read_completion fuel ec n s in
  let wr := PostWrite_completion ec n s in
  let peer_args := [arg_string (address (remote_endpoint (_socket s)));
                    arg_int (port (remote_endpoint (_socket s)))] in
  let info (fmt : string) := LogLine LEVEL_INFO LOG_FILTER_CONNECTION fmt peer_args in
  let error (fmt : string) :=
    LogLine LEVEL_ERROR LOG_FILTER_CONNECTION fmt
      (arg_int (value ec) :: arg_error_message ec :: peer_args) in
  (failed (remote_endpoint_status (_socket s)) = false ->
   (ec = asio_error.eof \/ ec = asio_error.connection_reset ->
    shutdown_requests (trace rd) = [shutdown_both] /\
    shutdown_requests (trace wr) = [shutdown_both] /\
    log_lines (trace rd) =
      [info "Disconnected. address: {}, port: {}"%string; disconnect_line shutdown_both (_socket s)] /\
    log_lines (trace wr) =
      [info "Disconnected. address: {}, port: {}"%string; disconnect_line shutdown_both (_socket s)]) /\
   (ec <> asio_error.eof -> ec <> asio_error.connection_reset ->
    shutdown_requests (trace rd) = [shutdown_receive] /\
    shutdown_requests (trace wr) = [shutdown_send]) /\
   (ec <> asio_error.eof -> ec <> asio_error.connection_reset ->
    ec <> asio_error.connection_aborted -> n <> 0 ->
    log_lines (trace rd) =
      [error "Connection receive error. error_code: {}, error_message: {}, address: {}, port: {}"%string;
       disconnect_line shutdown_receive (_socket s)] /\
    log_lines (trace wr) =
      [error "Connection send error. error_code: {}, error_message: {}, address: {}, port: {}"%string;
       disconnect_line shutdown_send (_socket s)]) /\
   (ec = asio_error.connection_aborted ->
    log_lines (trace rd) =
      [info "Connection aborted. address: {}, port: {}"%string;
       disconnect_line shutdown_receive (_socket s)] /\
    log_lines (trace wr) =
      [info "Connection aborted. address: {}, port: {}"%string;
       disconnect_line shutdown_send (_socket s)]) /\
   (ec <> asio_error.eof -> ec <> asio_error.connection_reset ->
    ec <> asio_error.connection_aborted -> n = 0 ->
    log_lines (trace rd) =
      [info "Disconnected. 0 bytes transferred. address: {}, port: {}"%string;
       disconnect_line shutdown_receive (_socket s)] /\
    log_lines (trace wr) =
      [info "Disconnected. 0 bytes transferred. address: {}, port: {}"%string;
       disconnect_line shutdown_send (_socket s)]) /\
   posted (trace rd) = [] /\ posted (trace wr) = []) /\
  (failed (remote_endpoint_status (_socket s)) = true ->
   rd = Result (Thrown (system_error (remote_endpoint_status (_socket s)))) s [] /\
   wr = Result (Thrown (system_error (remote_endpoint_status (_socket s)))) s
          [ev_lock_w; ev_unlock_w]).
Proof.
  intros Ho Hf rd wr peer_args info error. subst rd wr. split.
  - intros Hp.
    assert (Hfn : failed ec || (n =? 0) = true) by (rewrite Hf; reflexivity).
    destruct (read_completion_failure_reads fuel s ec n Ho Hp Hfn) as (Rl & Rs & Rp & _).
    destruct (write_completion_failure_reads s ec n Ho Hp Hfn) as (Wl & Ws & Wp & _).
    cbn zeta in Rl, Rs, Rp, Wl, Ws, Wp. rewrite Rl, Rs, Rp, Wl, Ws, Wp.
    unfold failure_line, failure_mode, receive_error_format, send_error_format.
    subst info error peer_args.
    destruct (error_code_eqb ec asio_error.eof) eqn:Eeof;
    destruct (error_code_eqb ec asio_error.connection_reset) eqn:Ereset;
    destruct (error_code_eqb ec asio_error.connection_aborted) eqn:Eab;
    destruct (n =? 0) eqn:En; cbn [orb].
    all: repeat match goal with |- _ /\ _ => split end; try reflexivity.
    all: intros; try (repeat split; reflexivity).
    all: repeat match goal with
           | H : error_code_eqb _ _ = true |- _ => apply error_code_eqb_eq in H
           | H : error_code_eqb ?a ?b = false |- _ =>
               assert (a <> b) by (intros X; apply error_code_eqb_eq in X; congruence);
               clear H
           | H : (_ =? _) = true |- _ => apply Z.eqb_eq in H
           | H : (_ =? _) = false |- _ => apply Z.eqb_neq in H
           | H : _ \/ _ |- _ => destruct H
           end; subst; try contradiction; try discriminate; try congruence.
  - intros Hp. split.
    + apply read_completion_peer_unknown; assumption.
    + apply write_completion_peer_unknown; assumption.
Qed.

(** *** The packet number in the refusal line *)

(** C6, where the code departs from it.  The read completion hands the
    ready packets to the handler one at a time and stops at the first one
    the handler refuses: it shuts the receive side down, dispatches nothing
    more and posts no read.  But the number in its error line is read from
    the receive buffer after the handler has returned.  When the handler
    does what the dispatch contract asks of it, takes exactly one packet out
    of the buffer and then refuses it, the line carries whatever stands at
    the read cursor behind the refused packet, not the refused packet's
    number. *)
Theorem refused_packet_number_read_after_dispatch (fuel k : nat) (s0 s1 : Session)
    (ec : error_code) (n : Z) (rb : PacketBuffer) (tr tr2 : list event) :
  is_open (_socket s0) = true ->
  failed (remote_endpoint_status (_socket s0)) = false ->
  failed ec = false ->
  n <> 0 ->
  AppendWriteSize (uint16 n) (_recvBuffer s0) = (true, rb) ->
  accepted k (with_recvBuffer s0 rb) s1 tr ->
  ready (_recvBuffer s1) = true ->
  let refused := _recvBuffer s1 in
  let behind :=
    TruncateBuffer (header_size + payload_length (GetBuffer refused)) refused in
  Handle s1 = Result (Returned false) (with_recvBuffer s1 behind) tr2 ->
  (k < fuel)%nat ->
  let r := read_completion fuel ec n s0 in
  let sd := Shutdown shutdown_receive (with_recvBuffer s1 behind) in
  trace r =
    tr ++ ev_dispatch :: tr2 ++
    ev_log (LogLine LEVEL_ERROR LOG_FILTER_CONNECTION
              "Receive Handler failed. packetNumber: {}" [arg_int (packet_no (GetBuffer behind))])
    :: trace sd /\
  final r = final sd /\
  posted (trace sd) = [] /\
  dispatches (trace sd) = O.
Proof.
  intros Ho Hp Hf Hn Ha Hd Hr refused behind Hh Hlt r sd. subst r.
  rewrite (read_completion_success fuel s0 ec n rb Ho Hp Hf Hn Ha).
  destruct (drain_first_failure k _ s1 tr Hd _ tr2 fuel Hr Hh Hlt) as (Ht & Hfin & Hout).
  cbn zeta in Ht, Hfin, Hout. fold sd in Ht, Hfin.
  destruct (Shutdown_quiet shutdown_receive (with_recvBuffer s1 behind)) as (Hq & Hdp & _).
  fold sd in Hq, Hdp.
  destruct (drain_loop fuel (with_recvBuffer s0 rb)) as [o sf tf] eqn:E.
  cbn [out final trace] in Ht, Hfin, Hout. subst tf sf.
  unfold bind. rewrite E.
  assert (Hb : _recvBuffer (with_recvBuffer s1 behind) = behind) by (destruct s1; reflexivity).
  unfold handler_failed_line, GetPacketNo. rewrite Hb.
  destruct o as [[|]| | |]; cbn [out final trace ret prepend]; rewrite ?app_nil_r;
    try (exfalso; apply Hout; reflexivity).
  all: repeat match goal with |- _ /\ _ => split end; try assumption; reflexivity.
Qed.

End ReadLoopFacts.

(** * The facts at the sample sessions *)

Lemma Shutdown_socket_error_terminates_witness :
  out (Shutdown shutdown_both session_peer_gone) = Terminated.
Proof.
  apply (Shutdown_socket_error_terminates session_peer_gone shutdown_both); reflexivity.
Defined.

Lemma Shutdown_idempotent_witness :
  (Shutdown shutdown_send ;; Shutdown shutdown_both) session_open
  = Shutdown shutdown_send session_open.
Proof.
  destruct (Shutdown_idempotent session_open shutdown_send shutdown_both) as (_ & _ & H & _).
  exact H.
Defined.

Lemma write_success_bookkeeping_witness :
  PostWrite_completion asio_error.success 2 session_open =
    Result (Returned tt) (with_sendBuffer session_open (TruncateBuffer 2 three_pending))
      [ev_lock_w; ev_unlock_w; ev_lock_w; ev_async_write [Byte.x2a]; ev_unlock_w].
Proof.
  destruct (write_success_bookkeeping session_open asio_error.success 2) as (_ & _ & H).
  - reflexivity.
  - reflexivity.
  - reflexivity.
  - lia.
  - rewrite H. reflexivity.
Defined.


Lemma reset_then_SendPacket_witness :
  out (SendPackets [[Byte.x2a]; [Byte.x01; Byte.x02; Byte.x03; Byte.x04; Byte.x05]]
         (final (PostWrite_completion asio_error.connection_reset 0 session_open)))
  = Returned (queue_results [[Byte.x2a]; [Byte.x01; Byte.x02; Byte.x03; Byte.x04; Byte.x05]]
                (_sendBuffer session_open)).
Proof.
  destruct (reset_then_SendPacket session_open 0
              [[Byte.x2a]; [Byte.x01; Byte.x02; Byte.x03; Byte.x04; Byte.x05]])
    as (_ & Hret & Hafter & _).
  - reflexivity.
  - destruct (Hafter (Hret eq_refl eq_refl)) as (_ & H & _). exact H.
Defined.

Lemma refused_packet_number_read_after_dispatch_witness :
  let r := PostReceive_completion sample_header_size sample_payload_length sample_packet_no
             sample_receive_floor (sample_consume (fun _ => false)) 1
             asio_error.success 9 session_two_arriving in
  GetPacketNo sample_packet_no two_ready = 42 /\
  log_lines (trace r) =
    [LogLine LEVEL_ERROR LOG_FILTER_CONNECTION "Receive Handler failed. packetNumber: {}"
       [arg_int 43];
     disconnect_line shutdown_receive socket_open].
Proof.
  split; [reflexivity|].
  destruct (refused_packet_number_read_after_dispatch sample_header_size
              sample_payload_length sample_packet_no sample_receive_floor
              (sample_consume (fun _ => false)) 1 0
              session_two_arriving (with_recvBuffer session_two_arriving two_ready)
              asio_error.success 9 two_ready [] []) as (Ht & _).
  - reflexivity.
  - reflexivity.
  - reflexivity.
  - discriminate.
  - reflexivity.
  - constructor.
  - reflexivity.
  - reflexivity.
  - lia.
  - rewrite Ht. reflexivity.
Defined.

Lemma completion_sizes_narrowed_witness :
  readCursor (_sendBuffer (final (PostWrite_completion asio_error.success 70000 session_large)))
  = 4464.
Proof.
  destruct (completion_sizes_narrowed sample_header_size sample_payload_length
              sample_packet_no sample_receive_floor refuse 1 session_large
              asio_error.success 70000) as (_ & H & _).
  - reflexivity.
  - reflexivity.
  - reflexivity.
  - discriminate.
  - rewrite H. reflexivity.
Defined.

Lemma zero_bytes_is_disconnect_witness :
  shutdown_requests
    (trace (PostReceive_completion sample_header_size sample_payload_length sample_packet_no
              sample_receive_floor refuse 1 asio_error.success 0 session_open))
  = [shutdown_receive].
Proof.
  destruct (zero_bytes_is_disconnect sample_header_size sample_payload_length
              sample_packet_no sample_receive_floor refuse 1 session_open
              asio_error.success) as (H & _).
  - reflexivity.
  - reflexivity.
  - reflexivity.
  - exact H.
Defined.

Lemma connection_aborted_shutdown_witness :
  shutdown_requests
    (trace (PostWrite_completion asio_error.connection_aborted 0 session_open))
  = [shutdown_send].
Proof.
  destruct (connection_aborted_shutdown sample_header_size sample_payload_length
              sample_packet_no sample_receive_floor refuse 1 session_open 0) as (Hok & _).
  - reflexivity.
  - destruct (Hok eq_refl) as (_ & H & _). exact H.
Defined.

Lemma transport_error_shutdown_mode_witness :
  log_lines (trace (PostWrite_completion asio_error.timed_out 0 session_open)) =
    [LogLine LEVEL_INFO LOG_FILTER_CONNECTION
       "Disconnected. 0 bytes transferred. address: {}, port: {}"
       [arg_string "192.0.2.7"; arg_int 51000];
     disconnect_line shutdown_send socket_open].
Proof.
  destruct (transport_error_shutdown_mode sample_header_size sample_payload_length
              sample_packet_no sample_receive_floor refuse 1 session_open
              asio_error.timed_out 0) as (Hok & _).
  - reflexivity.
  - reflexivity.
  - destruct (Hok eq_refl) as (_ & _ & _ & _ & Hzero & _).
    destruct Hzero as (_ & H); try discriminate; [reflexivity | exact H].
Defined.

(** * Where the code departs from the specification *)

(** C1 as the specification states it fails.  When the operating system
    lets the handler shut down and close, the session is closed after the
    reset, and a [SendPacket] of a packet that fits answers success.  When
    the operating system no longer knows the peer, the handler is left by
    the exception, the socket stays open, and the [SendPacket] that follows
    answers success and posts a write. *)
Lemma SendPacket_after_reset_succeeds :
  let closed_session :=
    final (PostWrite_completion asio_error.connection_reset 0 session_open) in
  let open_session :=
    final (PostWrite_completion asio_error.connection_reset 0 session_peer_gone) in
  is_open (_socket closed_session) = false /\
  out (SendPacket [Byte.x2a] closed_session) = Returned true /\
  out (SendPacket [Byte.x2a] closed_session) <> Returned false /\
  is_open (_socket open_session) = true /\
  out (SendPacket [Byte.x2a] open_session) = Returned true /\
  posted (trace (SendPacket [Byte.x2a] open_session)) <> [].
Proof. vm_compute. repeat split; discriminate. Qed.

(** C2 as the specification states it fails: connection_aborted does not
    shut down both directions, neither in the read handler nor in the write
    handler; and when the operating system no longer knows the peer nothing
    is shut down at all. *)
Lemma connection_aborted_is_direction_restricted :
  shutdown_requests
    (trace (PostReceive_completion sample_header_size sample_payload_length sample_packet_no
              sample_receive_floor refuse 1 asio_error.connection_aborted 0 session_open))
    = [shutdown_receive] /\
  shutdown_requests (trace (PostWrite_completion asio_error.connection_aborted 0 session_open))
    = [shutdown_send] /\
  shutdown_requests
    (trace (PostWrite_completion asio_error.connection_aborted 0 session_peer_gone)) = [].
Proof. vm_compute. repeat split; reflexivity. Qed.

(** C4 as the specification states it fails: a read that completes with
    timed_out and zero bytes shuts down the receive side, but no line
    carries the error code or its message, and no line is at error
    severity. *)
Lemma timed_out_read_logs_no_error_code :
  let r := PostReceive_completion sample_header_size sample_payload_length sample_packet_no
             sample_receive_floor refuse 1 asio_error.timed_out 0 session_open in
  failed asio_error.timed_out = true /\
  shutdown_requests (trace r) = [shutdown_receive] /\
  existsb (logs_error_code asio_error.timed_out) (log_lines (trace r)) = false /\
  existsb is_error_line (log_lines (trace r)) = false.
Proof. vm_compute. repeat split; reflexivity. Qed.

(** * More of the session *)

Lemma shutdown_requests_app a b :
  shutdown_requests (a ++ b) = shutdown_requests a ++ shutdown_requests b.
Proof.
  induction a as [|e a IH]; [reflexivity|].
  destruct e; cbn; rewrite IH; reflexivity.
Qed.

Lemma socket_closes_app a b :
  socket_closes (a ++ b) = (socket_closes a + socket_closes b)%nat.
Proof.
  induction a as [|e a IH]; [reflexivity|].
  destruct e; cbn; rewrite IH; reflexivity.
Qed.

Lemma dispatches_app a b : dispatches (a ++ b) = (dispatches a + dispatches b)%nat.
Proof.
  induction a as [|e a IH]; [reflexivity|].
  destruct e; cbn; rewrite IH; reflexivity.
Qed.

Section SessionFacts.
Variable header_size : Z.
Variable payload_length : list Byte.byte -> Z.
Variable packet_no : list Byte.byte -> Z.
Variable receive_floor : Z.
Variable Handle : M bool.
Local Notation run1 := (run_call header_size payload_length packet_no receive_floor Handle).
Local Notation run := (run_calls header_size payload_length packet_no receive_floor Handle).

Lemma closed_call_is_inert fuel c s :
  is_open (_socket s) = false ->
  let r := run1 fuel c s in
  out r = Returned tt /\
  _socket (final r) = _socket s /\
  _recvBuffer (final r) = _recvBuffer s /\
  posted (trace r) = [] /\
  shutdown_requests (trace r) = [] /\
  socket_closes (trace r) = O /\
  dispatches (trace r) = O.
Proof.
  intros Hc. cbn zeta. session s. subst.
  destruct c as [m | | | ec n | | ec n | p]; cbn [run_call]; unfold Session_destructor.
  - cbn. repeat split; reflexivity.
  - cbn. repeat split; reflexivity.
  - unfold_ops. cbn. repeat split; reflexivity.
  - unfold_ops. cbn. repeat split; reflexivity.
  - unfold_ops. cbn. repeat split; reflexivity.
  - unfold_ops. cbn. repeat split; reflexivity.
  - unfold_ops. cbn. destruct (SetPacket p s_send) as [[|] b]; cbn; repeat split; reflexivity.
Qed.

(** X1. A closed session stays closed.  Whatever member functions are
    called and whatever completions arrive, in any order, on a session whose
    socket is closed, every call returns, the socket is not touched (no
    [shutdown], no [close], the same socket state), no operation is posted,
    the packet handler is never invoked and the receive buffer is left as
    it was. *)
Theorem closed_session_is_inert (fuel : nat) (cs : list call) :
  forall s, is_open (_socket s) = false ->
  let r := run fuel cs s in
  out r = Returned tt /\
  _socket (final r) = _socket s /\
  _recvBuffer (final r) = _recvBuffer s /\
  posted (trace r) = [] /\
  shutdown_requests (trace r) = [] /\
  socket_closes (trace r) = O /\
  dispatches (trace r) = O.
Proof.
  induction cs as [|c rest IH]; intros s Hc.
  - cbn. repeat split; reflexivity.
  - destruct (closed_call_is_inert fuel c s Hc) as (Ho & Hs & Hr & Hp & Hq & Hcl & Hd).
    cbn zeta. cbn [run_calls].
    destruct (run1 fuel c s) as [o1 s1 t1] eqn:E1. cbn [out final trace] in *. subst o1.
    rewrite (bind_returned _ _ _ _ _ _ E1).
    assert (Hc1 : is_open (_socket s1) = false) by (rewrite Hs; exact Hc).
    specialize (IH s1 Hc1). cbn zeta in IH.
    destruct IH as (IHo & IHs & IHr & IHp & IHq & IHcl & IHd).
    rewrite out_prepend, final_prepend, trace_prepend.
    rewrite posted_app, shutdown_requests_app, socket_closes_app, dispatches_app.
    rewrite IHo, IHs, IHr, IHp, IHq, IHcl, IHd, Hs, Hr, Hp, Hq, Hcl, Hd.
    repeat split; reflexivity.
Qed.

Lemma orb_false_completion ec n :
  failed ec || (n =? 0) = false -> failed ec = false /\ n <> 0.
Proof.
  intros H. apply orb_false_iff in H as [H1 H2]. apply Z.eqb_neq in H2. auto.
Qed.



Ltac frame_done :=
  split; [reflexivity | split; [reflexivity | intros size H; cbn in H; intuition discriminate]].

Ltac by_os_answers s m :=
  destruct (failed (shutdown_status (_socket s) m));
    [|destruct (failed (close_status (_socket s)))].

(** X2. The write side never reaches the read side: [Shutdown], the
    destructor, [PostWrite], the write completion and [SendPacket] leave the
    receive buffer as it was, never invoke the packet handler and never post
    a read, whatever the session and their arguments. *)
Theorem write_side_frame (fuel : nat) (c : call) (s : Session) :
  write_side c = true ->
  let r := run1 fuel c s in
  _recvBuffer (final r) = _recvBuffer s /\
  dispatches (trace r) = O /\
  (forall size, ~ In (ev_async_read_some size) (trace r)).
Proof.
  intros Hw. cbn zeta.
  destruct c as [m | | | ec n | | ec n | p]; try discriminate Hw;
    cbn [run_call]; unfold Session_destructor.
  - destruct (is_open (_socket s)) eqn:Ho.
    + rewrite (Shutdown_open s m Ho). by_os_answers s m; cbn; frame_done.
    + rewrite (Shutdown_closed s m Ho). cbn. frame_done.
  - destruct (is_open (_socket s)) eqn:Ho.
    + rewrite (Shutdown_open s shutdown_both Ho). by_os_answers s shutdown_both; cbn; frame_done.
    + rewrite (Shutdown_closed s shutdown_both Ho). cbn. frame_done.
  - session s. unfold_ops. cbn.
    destruct sk_open; cbn; [destruct (IsEmptyData s_send); cbn|];
      frame_done.
  - destruct (is_open (_socket s)) eqn:Ho.
    + destruct (failed (remote_endpoint_status (_socket s))) eqn:Hp.
      * rewrite (write_completion_peer_unknown s ec n Ho Hp). cbn. frame_done.
      * destruct (failed ec || (n =? 0)) eqn:Hf.
        -- rewrite (write_completion_failure s ec n Ho Hp Hf). cbn zeta.
           by_os_answers s (failure_mode shutdown_send ec); cbn; frame_done.
        -- destruct (orb_false_completion ec n Hf) as [Hf1 Hn].
           rewrite (write_completion_success s ec n Ho Hp Hf1 Hn). cbn zeta.
           destruct (IsEmptyData (TruncateBuffer (uint16 n) (_sendBuffer s)));
             cbn; frame_done.
    + session s. subst. unfold_ops. cbn. frame_done.
  - session s. unfold SendPacket. unfold_ops. cbn.
    destruct (SetPacket p s_send) as [[|] b]; cbn;
      destruct sk_open; cbn; try (destruct (IsEmptyData b); cbn);
      frame_done.
Qed.

(** X3. The lock is never taken twice.  In every run of the write side
    the lock is taken only when free and released only when held, a write is
    posted only while it is held, and when the call returns the lock is
    free. *)
Theorem write_side_lock_discipline (fuel : nat) (c : call) (s : Session) :
  write_side c = true ->
  let r := run1 fuel c s in
  exists held,
    lock_discipline false (trace r) = Some held /\
    (out r = Returned tt -> held = false).
Proof.
  intros Hw. cbn zeta.
  destruct c as [m | | | ec n | | ec n | p]; try discriminate Hw;
    cbn [run_call]; unfold Session_destructor.
  - destruct (is_open (_socket s)) eqn:Ho.
    + rewrite (Shutdown_open s m Ho).
      by_os_answers s m; cbn; eexists; split; reflexivity || auto.
    + rewrite (Shutdown_closed s m Ho). cbn. eexists; split; reflexivity || auto.
  - destruct (is_open (_socket s)) eqn:Ho.
    + rewrite (Shutdown_open s shutdown_both Ho).
      by_os_answers s shutdown_both; cbn; eexists; split; reflexivity || auto.
    + rewrite (Shutdown_closed s shutdown_both Ho). cbn. eexists; split; reflexivity || auto.
  - session s. unfold_ops. cbn.
    destruct sk_open; cbn; [destruct (IsEmptyData s_send); cbn|];
      eexists; split; reflexivity || auto.
  - destruct (is_open (_socket s)) eqn:Ho.
    + destruct (failed (remote_endpoint_status (_socket s))) eqn:Hp.
      * rewrite (write_completion_peer_unknown s ec n Ho Hp). cbn.
        eexists; split; reflexivity || auto.
      * destruct (failed ec || (n =? 0)) eqn:Hf.
        -- rewrite (write_completion_failure s ec n Ho Hp Hf). cbn zeta.
           by_os_answers s (failure_mode shutdown_send ec);
             cbn; eexists; (split; [reflexivity|]); intros H;
             first [discriminate H | reflexivity].
        -- destruct (orb_false_completion ec n Hf) as [Hf1 Hn].
           rewrite (write_completion_success s ec n Ho Hp Hf1 Hn). cbn zeta.
           destruct (IsEmptyData (TruncateBuffer (uint16 n) (_sendBuffer s)));
             cbn; eexists; split; reflexivity || auto.
    + session s. subst. unfold_ops. cbn. eexists; split; reflexivity || auto.
  - session s. unfold SendPacket. unfold_ops. cbn.
    destruct (SetPacket p s_send) as [[|] b]; cbn;
      destruct sk_open; cbn; try (destruct (IsEmptyData b); cbn);
      eexists; split; reflexivity || auto.
Qed.

(** X4. A completion that reports an error or zero bytes on an open
    session: whenever the handler returns, the socket is closed after
    exactly one [close], whichever direction the shutdown was for, both
    buffers keep their content, nothing is dispatched and nothing is posted.
    The handler does return when the operating system answers the query of
    the remote endpoint and refuses neither the [shutdown] of the mode the
    handler picks nor the [close]; when the query of the remote endpoint
    fails the exception leaves the handler and the session is as it was,
    the socket open. *)
Theorem failing_completion_closes_socket (fuel : nat) (s : Session) (ec : error_code) (n : Z) :
  is_open (_socket s) = true ->
  failed ec || (n =? 0) = true ->
  let rd := PostReceive_completion header_size payload_length packet_no receive_floor Handle
              fuel ec n s in
  let wr := PostWrite_completion ec n s in
  let after := MkSession (closed (_socket s)) (_recvBuffer s) (_sendBuffer s) in
  let both := error_code_eqb ec asio_error.eof
              || error_code_eqb ec asio_error.connection_reset in
  (out rd = Returned tt ->
   final rd = after /\ socket_closes (trace rd) = 1%nat /\
   dispatches (trace rd) = O /\ posted (trace rd) = []) /\
  (out wr = Returned tt ->
   final wr = after /\ socket_closes (trace wr) = 1%nat /\ posted (trace wr) = []) /\
  (failed (remote_endpoint_status (_socket s)) = false ->
   os_healthy (if both then shutdown_both else shutdown_receive) (_socket s) = true ->
   out rd = Returned tt) /\
  (failed (remote_endpoint_status (_socket s)) = false ->
   os_healthy (if both then shutdown_both else shutdown_send) (_socket s) = true ->
   out wr = Returned tt) /\
  (failed (remote_endpoint_status (_socket s)) = true ->
   rd = Result (Thrown (system_error (remote_endpoint_status (_socket s)))) s [] /\
   wr = Result (Thrown (system_error (remote_endpoint_status (_socket s)))) s
          [ev_lock_w; ev_unlock_w]).
Proof.
  intros Ho Hf. cbn zeta.
  destruct (failed (remote_endpoint_status (_socket s))) eqn:Hp.
  - rewrite (read_completion_peer_unknown header_size payload_length packet_no receive_floor
               Handle fuel s ec n Ho Hp).
    rewrite (write_completion_peer_unknown s ec n Ho Hp). cbn.
    repeat match goal with |- _ /\ _ => split end; intros; try discriminate;
      try reflexivity; split; reflexivity.
  - rewrite (read_completion_failure header_size payload_length packet_no receive_floor
               Handle fuel s ec n Ho Hp Hf).
    rewrite (write_completion_failure s ec n Ho Hp Hf). cbn zeta.
    rewrite (Shutdown_open s _ Ho). unfold os_healthy, failure_mode.
    destruct (error_code_eqb ec asio_error.eof
              || error_code_eqb ec asio_error.connection_reset);
    match goal with |- context [Shutdown] => idtac | _ => idtac end;
    repeat match goal with
      | |- context [failed (shutdown_status (_socket s) ?m)] =>
          destruct (failed (shutdown_status (_socket s) m))
      end;
    destruct (failed (close_status (_socket s))); cbn;
    repeat match goal with |- _ /\ _ => split end; intros;
      try discriminate; try reflexivity;
      repeat match goal with |- _ /\ _ => split end; reflexivity.
Qed.

(** X6. [PostReceive] answers whether it posted a read: on an open socket
    all it does is post one read, for the free tail of the receive buffer
    (compacted first when it is low on space), and it answers true; on a
    closed socket all it does is write its error line, and it answers
    false.  It never touches the socket or the send buffer, asks for no
    shutdown and never takes the lock. *)
Theorem PostReceive_posts_one_read (s : Session) :
  let r := PostReceive receive_floor s in
  let rb := _recvBuffer s in
  let rb' := if IsNotEnoughBuffer receive_floor rb then ReArrange rb else rb in
  out r = Returned (is_open (_socket s)) /\
  _socket (final r) = _socket s /\
  _sendBuffer (final r) = _sendBuffer s /\
  _recvBuffer (final r) = (if is_open (_socket s) then rb' else rb) /\
  trace r =
    (if is_open (_socket s) then [ev_async_read_some (size_t (GetRemainSize rb'))]
     else [ev_log (LogLine LEVEL_ERROR LOG_FILTER_CONNECTION
                     "Fail to PostReceive. Session is disconnected." [])]) /\
  ~ In ev_lock_w (trace r) /\
  ~ In ev_unlock_w (trace r) /\
  shutdown_requests (trace r) = [].
Proof.
  cbn zeta. session s. unfold_ops. cbn.
  destruct sk_open; cbn.
  - destruct (IsNotEnoughBuffer receive_floor s_recv); cbn;
      repeat match goal with |- _ /\ _ => split end; try reflexivity;
      intros H; cbn in H; intuition discriminate.
  - repeat match goal with |- _ /\ _ => split end; try reflexivity;
      intros H; cbn in H; intuition discriminate.
Qed.

(** X7. A read completion whose narrowed size does not fit the receive
    buffer writes the error line with the remaining size and the size as
    reported, calls [Shutdown] for the receive side and stops: the receive
    buffer is unchanged, nothing is dispatched, no read is posted. *)
Theorem receive_overrun_shuts_down (fuel : nat) (s : Session) (ec : error_code) (n : Z) :
  is_open (_socket s) = true ->
  failed (remote_endpoint_status (_socket s)) = false ->
  failed ec = false ->
  n <> 0 ->
  capacity (_recvBuffer s) < writeCursor (_recvBuffer s) + n mod 2 ^ 16 ->
  let r := PostReceive_completion header_size payload_length packet_no receive_floor Handle
             fuel ec n s in
  r = prepend [ev_log (overrun_line (_recvBuffer s) n)] (Shutdown shutdown_receive s) /\
  _recvBuffer (final r) = _recvBuffer s /\
  dispatches (trace r) = O /\
  posted (trace r) = [].
Proof.
  intros Ho Hp Hf Hn Hover. cbn zeta.
  assert (Ha : AppendWriteSize (uint16 n) (_recvBuffer s) = (false, _recvBuffer s)).
  { unfold AppendWriteSize, uint16. apply Z.leb_gt in Hover. rewrite Hover. reflexivity. }
  rewrite (read_completion_overrun header_size payload_length packet_no receive_floor Handle
             fuel s ec n Ho Hp Hf Hn Ha).
  split; [reflexivity|].
  rewrite final_prepend, trace_prepend, dispatches_app, posted_app.
  destruct (Shutdown_quiet shutdown_receive s) as (Hq & Hd & _). rewrite Hq, Hd.
  repeat split; try reflexivity.
  rewrite (Shutdown_open s shutdown_receive Ho).
  by_os_answers s shutdown_receive; reflexivity.
Qed.

(** X15. A completion handler asks the socket for its remote endpoint
    before it looks at the result of the operation, and catches nothing:
    when the operating system fails that query (the peer is gone), every
    completion on the open session, whatever it reports, leaves the handler
    by the exception.  Nothing is logged, [Shutdown] is not called, the
    socket stays open and the session is as it was; the write handler
    releases its lock on the way out. *)
Theorem completion_throws_when_peer_unknown (fuel : nat) (s : Session)
    (ec : error_code) (n : Z) :
  is_open (_socket s) = true ->
  failed (remote_endpoint_status (_socket s)) = true ->
  PostReceive_completion header_size payload_length packet_no receive_floor Handle
    fuel ec n s
  = Result (Thrown (system_error (remote_endpoint_status (_socket s)))) s [] /\
  PostWrite_completion ec n s
  = Result (Thrown (system_error (remote_endpoint_status (_socket s)))) s
      [ev_lock_w; ev_unlock_w].
Proof.
  intros Ho Hp. split.
  - apply read_completion_peer_unknown; assumption.
  - apply write_completion_peer_unknown; assumption.
Qed.

Local Notation read_completion :=
  (PostReceive_completion header_size payload_length packet_no receive_floor Handle).
Local Notation drain_loop := (drain header_size payload_length packet_no Handle).
Local Notation ready := (IsAbleToGetPacket header_size payload_length).
Local Notation accepted := (dispatched header_size payload_length Handle).

Lemma PostReceive_returns s :
  exists s' tr, PostReceive receive_floor s = Result (Returned (is_open (_socket s))) s' tr /\
    length (posted tr) = (if is_open (_socket s) then 1 else 0)%nat.
Proof.
  session s. unfold_ops. cbn. destruct sk_open; cbn.
  - destruct (IsNotEnoughBuffer receive_floor s_recv); cbn; do 2 eexists; split; reflexivity.
  - do 2 eexists; split; reflexivity.
Qed.

(** X8. When the handler accepted every ready packet (possibly none,
    the bytes received so far not making a packet), the read completion
    ends with one call of [PostReceive] and nothing else: a single read is
    posted when the socket is still open, none when a handler closed it, and
    no shutdown is asked for. *)
Theorem read_completion_rearms (fuel k : nat) (s0 s1 : Session)
    (ec : error_code) (n : Z) (rb : PacketBuffer) (tr : list event) :
  is_open (_socket s0) = true ->
  failed (remote_endpoint_status (_socket s0)) = false ->
  failed ec = false ->
  n <> 0 ->
  AppendWriteSize (uint16 n) (_recvBuffer s0) = (true, rb) ->
  accepted k (with_recvBuffer s0 rb) s1 tr ->
  ready (_recvBuffer s1) = false ->
  (k < fuel)%nat ->
  let r := read_completion fuel ec n s0 in
  let pr := PostReceive receive_floor s1 in
  out r = Returned tt /\
  final r = final pr /\
  trace r = tr ++ trace pr /\
  length (posted (trace pr)) = (if is_open (_socket s1) then 1 else 0)%nat /\
  shutdown_requests (trace pr) = [].
Proof.
  intros Ho Hp Hf Hn Ha Hacc Hr Hlt. cbn zeta.
  rewrite (read_completion_success header_size payload_length packet_no receive_floor Handle
             fuel s0 ec n rb Ho Hp Hf Hn Ha).
  rewrite (bind_returned _ _ _ _ _ _
             (drain_completes header_size payload_length packet_no Handle
                k _ s1 tr Hacc fuel Hr Hlt)).
  destruct (PostReceive_returns s1) as (s' & tr' & E & Hlen).
  rewrite (bind_returned _ _ _ _ _ _ E). rewrite E. cbn.
  rewrite app_nil_r. repeat split; try assumption.
  assert (Hq : shutdown_requests (trace (PostReceive receive_floor s1)) = []).
  { clear. session s1. unfold_ops. cbn. destruct sk_open; cbn;
      [destruct (IsNotEnoughBuffer receive_floor s_recv)|]; reflexivity. }
  rewrite E in Hq. exact Hq.
Qed.

Lemma drain_ready_thrown fuel s e s2 tr2 :
  ready (_recvBuffer s) = true ->
  Handle s = Result (Thrown e) s2 tr2 ->
  drain_loop (S fuel) s = Result (Thrown e) s2 (ev_dispatch :: tr2).
Proof.
  intros Hr Hh. cbn [drain].
  rewrite (bind_returned get_recvBuffer _ s (_recvBuffer s) s []) by reflexivity.
  rewrite Hr.
  rewrite (bind_returned (emit ev_dispatch) _ s tt s [ev_dispatch]) by reflexivity.
  unfold bind at 1. rewrite Hh. reflexivity.
Qed.

Lemma drain_handler_throws k s s1 tr :
  accepted k s s1 tr ->
  forall e s2 tr2 fuel,
  ready (_recvBuffer s1) = true ->
  Handle s1 = Result (Thrown e) s2 tr2 ->
  (k < fuel)%nat ->
  drain_loop fuel s = Result (Thrown e) s2 (tr ++ ev_dispatch :: tr2).
Proof.
  induction 1 as [s | k s sa sb tra trb Hready Hh Hd IH]; intros e s2 tr2 fuel Hr Hf Hlt.
  - destruct fuel as [|fuel]; [lia|]. apply drain_ready_thrown; assumption.
  - destruct fuel as [|fuel]; [lia|].
    rewrite (drain_ready_accepted header_size payload_length packet_no Handle
               fuel s sa tra Hready Hh).
    rewrite (IH e s2 tr2 fuel Hr Hf) by lia. cbn. rewrite <- app_assoc. reflexivity.
Qed.

(** X9. The read completion catches nothing: an exception thrown by the
    packet handler leaves the completion as it is, after the packets
    accepted before; the session logs nothing, does not shut down and does
    not post the next read. *)
Theorem handler_exception_escapes (fuel k : nat) (s0 s1 s2 : Session)
    (ec : error_code) (n : Z) (rb : PacketBuffer) (tr tr2 : list event) (e : exception) :
  is_open (_socket s0) = true ->
  failed (remote_endpoint_status (_socket s0)) = false ->
  failed ec = false ->
  n <> 0 ->
  AppendWriteSize (uint16 n) (_recvBuffer s0) = (true, rb) ->
  accepted k (with_recvBuffer s0 rb) s1 tr ->
  ready (_recvBuffer s1) = true ->
  Handle s1 = Result (Thrown e) s2 tr2 ->
  (k < fuel)%nat ->
  read_completion fuel ec n s0 = Result (Thrown e) s2 (tr ++ ev_dispatch :: tr2).
Proof.
  intros Ho Hp Hf Hn Ha Hacc Hr Hh Hlt.
  rewrite (read_completion_success header_size payload_length packet_no receive_floor Handle
             fuel s0 ec n rb Ho Hp Hf Hn Ha).
  unfold bind at 1.
  rewrite (drain_handler_throws k _ s1 tr Hacc e s2 tr2 fuel Hr Hh Hlt). reflexivity.
Qed.
End SessionFacts.

(** ** Queueing into the send buffer *)

Lemma SetPacket_overflow p b :
  capacity b < writeCursor b + Z.of_nat (length p) -> SetPacket p b = (false, b).
Proof.
  intros H. unfold SetPacket. apply Z.leb_gt in H. rewrite H. reflexivity.
Qed.

Lemma SetPacket_fits p b :
  well_formed b ->
  writeCursor b + Z.of_nat (length p) <= capacity b ->
  exists b',
    SetPacket p b = (true, b') /\
    well_formed b' /\
    readCursor b' = readCursor b /\
    writeCursor b' = writeCursor b + Z.of_nat (length p) /\
    capacity b' = capacity b /\
    GetBuffer b' = GetBuffer b ++ p.
Proof.
  intros (Hr0 & Hrw & Hwc & Hlen) Hfit.
  unfold SetPacket. apply Z.leb_le in Hfit. rewrite Hfit. apply Z.leb_le in Hfit.
  eexists. split; [reflexivity|].
  destruct b as [st cap rc wc]. cbn [storage capacity readCursor writeCursor] in *.
  assert (Hlw : (Z.to_nat wc <= length st)%nat) by lia.
  split; [|split; [reflexivity|split; [reflexivity|split; [reflexivity|]]]].
  - unfold well_formed. cbn [storage capacity readCursor writeCursor].
    repeat split; try lia.
    rewrite !length_app, length_firstn, length_skipn. lia.
  - unfold GetBuffer, GetBufferSize. cbn [storage capacity readCursor writeCursor].
    set (r := Z.to_nat rc). set (w := Z.to_nat wc).
    replace (Z.to_nat (wc + Z.of_nat (length p) - rc)) with ((w - r) + length p)%nat by lia.
    replace (Z.to_nat (wc - rc)) with (w - r)%nat by lia.
    assert (Hfl : length (firstn w st) = w) by (rewrite length_firstn; lia).
    rewrite skipn_app, Hfl.
    replace (r - w)%nat with O by lia. cbn [skipn].
    assert (Hsl : length (skipn r (firstn w st)) = (w - r)%nat)
      by (rewrite length_skipn, Hfl; reflexivity).
    rewrite firstn_app, Hsl.
    rewrite (firstn_all2 (n := (w - r + length p)%nat) (skipn r (firstn w st))) by lia.
    replace (w - r + length p - (w - r))%nat with (length p) by lia.
    rewrite firstn_app, firstn_all, Nat.sub_diag. cbn [firstn]. rewrite app_nil_r.
    f_equal.
    rewrite firstn_skipn_comm. replace (r + (w - r))%nat with w by lia. reflexivity.
Qed.

(** X10. A packet that does not fit the send buffer is refused on the
    spot: [SendPacket] answers false, writes its error line inside the lock
    and leaves the whole session as it was, socket open or closed; nothing
    is posted and the connection is not shut down. *)
Theorem SendPacket_overflow_is_local (s : Session) (p : list Byte.byte) :
  capacity (_sendBuffer s) < writeCursor (_sendBuffer s) + Z.of_nat (length p) ->
  SendPacket p s =
    Result (Returned false) s
      [ev_lock_w;
       ev_log (LogLine LEVEL_ERROR LOG_FILTER_PACKET_BUFFER "Fail to SetPacket()." []);
       ev_unlock_w].
Proof.
  intros H. pose proof (SetPacket_overflow p _ H) as E.
  session s. unfold SendPacket. unfold_ops. cbn. rewrite E. reflexivity.
Qed.

Lemma SendPacket_open_queued (s : Session) (p : list Byte.byte) (b' : PacketBuffer) :
  is_open (_socket s) = true ->
  SetPacket p (_sendBuffer s) = (true, b') ->
  IsEmptyData b' = false ->
  SendPacket p s =
    Result (Returned true) (with_sendBuffer s b')
      [ev_lock_w; ev_unlock_w; ev_lock_w; ev_async_write (GetBuffer b'); ev_unlock_w].
Proof.
  intros Ho E He. session s. subst. unfold SendPacket. unfold_ops. unfold with_sendBuffer.
  cbn. rewrite E. cbn. rewrite He. reflexivity.
Qed.

(** X11. On an open session [SendPacket] of a packet that fits answers
    true and posts one write, inside the lock, of everything pending in the
    send buffer followed by the packet; the pending bytes of the buffer are
    then the former ones followed by the packet, socket and receive buffer
    untouched. *)
Theorem SendPacket_posts_pending_and_packet (s : Session) (p : list Byte.byte) :
  is_open (_socket s) = true ->
  well_formed (_sendBuffer s) ->
  writeCursor (_sendBuffer s) + Z.of_nat (length p) <= capacity (_sendBuffer s) ->
  readCursor (_sendBuffer s) < writeCursor (_sendBuffer s) + Z.of_nat (length p) ->
  let r := SendPacket p s in
  out r = Returned true /\
  trace r = [ev_lock_w; ev_unlock_w; ev_lock_w;
             ev_async_write (GetBuffer (_sendBuffer s) ++ p); ev_unlock_w] /\
  _socket (final r) = _socket s /\
  _recvBuffer (final r) = _recvBuffer s /\
  well_formed (_sendBuffer (final r)) /\
  GetBuffer (_sendBuffer (final r)) = GetBuffer (_sendBuffer s) ++ p.
Proof.
  intros Ho Hwf Hfit Hne. cbn zeta.
  destruct (SetPacket_fits p _ Hwf Hfit) as (b' & E & Hwf' & Hr & Hw & Hc & Hg).
  assert (He : IsEmptyData b' = false).
  { unfold IsEmptyData. apply Z.eqb_neq. lia. }
  rewrite (SendPacket_open_queued s p b' Ho E He). cbn [out final trace].
  unfold with_sendBuffer. cbn [_socket _recvBuffer _sendBuffer]. rewrite Hg.
  split; [reflexivity|]. split; [reflexivity|]. split; [reflexivity|].
  split; [reflexivity|]. split; [exact Hwf' | reflexivity].
Qed.

(** X12. Two calls of [SendPacket] in a row, no completion in between,
    post two writes, and the second write starts again at the read cursor:
    it carries the bytes of the first write once more, followed by the second
    packet.  [PostWrite] does not know that a write is in flight. *)
Theorem back_to_back_sends_overlap (s : Session) (p1 p2 : list Byte.byte) :
  is_open (_socket s) = true ->
  well_formed (_sendBuffer s) ->
  writeCursor (_sendBuffer s) + Z.of_nat (length p1) + Z.of_nat (length p2)
    <= capacity (_sendBuffer s) ->
  readCursor (_sendBuffer s) < writeCursor (_sendBuffer s) + Z.of_nat (length p1) ->
  let r := (SendPacket p1 ;; SendPacket p2) s in
  let pending := GetBuffer (_sendBuffer s) in
  out r = Returned true /\
  posted (trace r) = [ev_async_write (pending ++ p1); ev_async_write ((pending ++ p1) ++ p2)].
Proof.
  intros Ho Hwf Hfit Hne. cbn zeta.
  assert (Hfit1 : writeCursor (_sendBuffer s) + Z.of_nat (length p1)
                  <= capacity (_sendBuffer s)) by lia.
  destruct (SetPacket_fits p1 _ Hwf Hfit1) as (b1 & E1 & Hwf1 & Hr1 & Hw1 & Hc1 & Hg1).
  assert (He1 : IsEmptyData b1 = false) by (unfold IsEmptyData; apply Z.eqb_neq; lia).
  rewrite (bind_returned _ _ _ _ _ _ (SendPacket_open_queued s p1 b1 Ho E1 He1)).
  assert (Hfit2 : writeCursor b1 + Z.of_nat (length p2) <= capacity b1) by lia.
  destruct (SetPacket_fits p2 b1 Hwf1 Hfit2) as (b2 & E2 & Hwf2 & Hr2 & Hw2 & Hc2 & Hg2).
  assert (He2 : IsEmptyData b2 = false) by (unfold IsEmptyData; apply Z.eqb_neq; lia).
  rewrite (SendPacket_open_queued (with_sendBuffer s b1) p2 b2 Ho E2 He2).
  cbn. rewrite Hg2, Hg1. split; reflexivity.
Qed.

Lemma GetBuffer_length b :
  well_formed b -> length (GetBuffer b) = Z.to_nat (GetBufferSize b).
Proof.
  intros (Hr0 & Hrw & Hwc & Hlen). unfold GetBuffer, GetBufferSize.
  rewrite length_firstn, length_skipn. lia.
Qed.

Lemma GetBuffer_TruncateBuffer b n :
  0 <= n -> 0 <= readCursor b ->
  GetBuffer (TruncateBuffer n b) = skipn (Z.to_nat n) (GetBuffer b).
Proof.
  intros Hn Hr. unfold GetBuffer, GetBufferSize, TruncateBuffer.
  cbn [storage capacity readCursor writeCursor].
  rewrite skipn_firstn_comm, skipn_skipn.
  replace (Z.to_nat (readCursor b + n)) with (Z.to_nat n + Z.to_nat (readCursor b))%nat by lia.
  f_equal. lia.
Qed.

Lemma ReArrange_keeps_pending b :
  well_formed b -> well_formed (ReArrange b) /\ GetBuffer (ReArrange b) = GetBuffer b.
Proof.
  intros Hwf. pose proof (GetBuffer_length b Hwf) as Hl.
  destruct Hwf as (Hr0 & Hrw & Hwc & Hlen).
  split.
  - unfold well_formed, ReArrange. cbn [storage capacity readCursor writeCursor].
    unfold GetBufferSize. repeat split; try lia.
    rewrite length_app, length_skipn, Hl. unfold GetBufferSize. lia.
  - unfold ReArrange. unfold GetBuffer at 1, GetBufferSize at 1.
    cbn [storage capacity readCursor writeCursor]. cbn [Z.to_nat skipn].
    rewrite Z.sub_0_r, <- Hl, firstn_app, firstn_all, Nat.sub_diag. cbn [firstn].
    apply app_nil_r.
Qed.

(** X13. A successful write completion of n bytes, n below 65536 and not
    more than was pending, leaves exactly the bytes after the first n pending
    in the send buffer.  When some remain the handler leaves the buffer
    truncated by n and the write posted next is for these bytes; when none
    remain the handler compacts the buffer, both cursors are back at the
    start of the storage, and nothing is posted. *)
Theorem write_completion_resumes_at_suffix (s : Session) (ec : error_code) (n : Z) :
  is_open (_socket s) = true ->
  failed (remote_endpoint_status (_socket s)) = false ->
  failed ec = false ->
  well_formed (_sendBuffer s) ->
  0 < n < 65536 ->
  n <= GetBufferSize (_sendBuffer s) ->
  let r := PostWrite_completion ec n s in
  let sb := _sendBuffer s in
  let rest := skipn (Z.to_nat n) (GetBuffer sb) in
  out r = Returned tt /\
  final r = with_sendBuffer s (if n =? GetBufferSize sb then ReArrange (TruncateBuffer n sb)
                               else TruncateBuffer n sb) /\
  (n = GetBufferSize sb ->
   readCursor (_sendBuffer (final r)) = 0 /\ writeCursor (_sendBuffer (final r)) = 0) /\
  (n <> GetBufferSize sb ->
   readCursor (_sendBuffer (final r)) = readCursor sb + n /\
   writeCursor (_sendBuffer (final r)) = writeCursor sb /\
   storage (_sendBuffer (final r)) = storage sb) /\
  posted (trace r) = (if n =? GetBufferSize sb then [] else [ev_async_write rest]) /\
  GetBuffer (_sendBuffer (final r)) = rest /\
  well_formed (_sendBuffer (final r)).
Proof.
  intros Ho Hp Hf Hwf Hn Hle. cbn zeta.
  assert (Hn0 : n <> 0) by lia.
  rewrite (write_completion_success s ec n Ho Hp Hf Hn0). cbn zeta.
  assert (Hu : uint16 n = n) by (unfold uint16; apply Z.mod_small; lia). rewrite Hu.
  pose proof (GetBuffer_length _ Hwf) as Hl.
  destruct Hwf as (Hr0 & Hrw & Hwc & Hlen).
  assert (Hwf' : well_formed (TruncateBuffer n (_sendBuffer s))).
  { unfold well_formed, TruncateBuffer, GetBufferSize in *.
    cbn [storage capacity readCursor writeCursor]. repeat split; lia. }
  pose proof (GetBuffer_TruncateBuffer (_sendBuffer s) n ltac:(lia) Hr0) as Hg.
  unfold IsEmptyData. cbn [TruncateBuffer readCursor writeCursor].
  unfold GetBufferSize in *.
  destruct (readCursor (_sendBuffer s) + n =? writeCursor (_sendBuffer s)) eqn:Ee.
  - apply Z.eqb_eq in Ee.
    replace (n =? writeCursor (_sendBuffer s) - readCursor (_sendBuffer s)) with true
      by (symmetry; apply Z.eqb_eq; lia).
    destruct (ReArrange_keeps_pending _ Hwf') as (Hwfr & Hgr).
    cbn [out final trace posted filter is_io].
    assert (Hsb : forall b, _sendBuffer (with_sendBuffer s b) = b) by (destruct s; reflexivity).
    rewrite Hsb, Hgr, Hg.
    repeat match goal with |- _ /\ _ => split | |- _ -> _ => intro end;
      try reflexivity; try exact Hwfr; try lia.
    unfold ReArrange, GetBufferSize. cbn [TruncateBuffer readCursor writeCursor]. lia.
  - apply Z.eqb_neq in Ee.
    replace (n =? writeCursor (_sendBuffer s) - readCursor (_sendBuffer s)) with false
      by (symmetry; apply Z.eqb_neq; lia).
    cbn [out final trace posted filter is_io].
    assert (Hsb : forall b, _sendBuffer (with_sendBuffer s b) = b) by (destruct s; reflexivity).
    rewrite Hsb, Hg.
    repeat match goal with |- _ /\ _ => split | |- _ -> _ => intro end;
      try reflexivity; try exact Hwf'; try lia.
Qed.

Section PostReceiveFacts.
Variable receive_floor : Z.

Lemma PostReceive_open (s : Session) :
  is_open (_socket s) = true ->
  PostReceive receive_floor s =
    let rb := if IsNotEnoughBuffer receive_floor (_recvBuffer s)
              then ReArrange (_recvBuffer s) else _recvBuffer s in
    Result (Returned true) (with_recvBuffer s rb)
      [ev_async_read_some (size_t (GetRemainSize rb))].
Proof.
  intros Ho. session s. subst. unfold_ops. unfold with_recvBuffer. cbn.
  destruct (IsNotEnoughBuffer receive_floor s_recv); reflexivity.
Qed.

(** X14. [PostReceive] on an open session keeps the pending bytes of the
    receive buffer, compaction or not, and asks for the free tail exactly; a
    completion that delivers no more than was asked for, and less than
    65536 bytes, is recorded without overrun and adds its bytes to the
    pending ones. *)
Theorem read_within_request_never_overruns (s : Session) (n : Z) :
  is_open (_socket s) = true ->
  well_formed (_recvBuffer s) ->
  capacity (_recvBuffer s) < 2 ^ 64 ->
  let r := PostReceive receive_floor s in
  let rb := _recvBuffer (final r) in
  well_formed rb /\
  GetBuffer rb = GetBuffer (_recvBuffer s) /\
  posted (trace r) = [ev_async_read_some (GetRemainSize rb)] /\
  (0 < n <= GetRemainSize rb -> n < 65536 ->
   exists rb', AppendWriteSize (uint16 n) rb = (true, rb') /\ well_formed rb' /\
               GetBufferSize rb' = GetBufferSize rb + n).
Proof.
  intros Ho Hwf Hcap. cbn zeta.
  set (rb0 := _recvBuffer s) in *.
  assert (E : exists rb, well_formed rb /\ GetBuffer rb = GetBuffer rb0 /\
                capacity rb = capacity rb0 /\
                PostReceive receive_floor s =
                  Result (Returned true) (with_recvBuffer s rb)
                    [ev_async_read_some (size_t (GetRemainSize rb))]).
  { rewrite (PostReceive_open s Ho). fold rb0.
    destruct (IsNotEnoughBuffer receive_floor rb0).
    - destruct (ReArrange_keeps_pending rb0 Hwf) as (Hw & Hg).
      exists (ReArrange rb0). split; [exact Hw|]. split; [exact Hg|]. split; reflexivity.
    - exists rb0. split; [exact Hwf|]. split; [reflexivity|]. split; reflexivity. }
  destruct E as (rb & Hw & Hg & Hc & E). rewrite E. cbn [final trace with_recvBuffer _recvBuffer].
  destruct Hw as (Hr0 & Hrw & Hwc & Hlen).
  assert (Hsz : size_t (GetRemainSize rb) = GetRemainSize rb).
  { unfold size_t, GetRemainSize. apply Z.mod_small. lia. }
  rewrite Hsz. split; [unfold well_formed; auto|]. split; [exact Hg|]. split; [reflexivity|].
  intros Hn Hsmall. unfold GetRemainSize in Hn.
  assert (Hu : uint16 n = n) by (unfold uint16; apply Z.mod_small; lia). rewrite Hu.
  unfold AppendWriteSize.
  replace (writeCursor rb + n <=? capacity rb) with true by (symmetry; apply Z.leb_le; lia).
  eexists. split; [reflexivity|].
  unfold well_formed, GetBufferSize. cbn [storage capacity readCursor writeCursor].
  repeat split; lia.
Qed.
End PostReceiveFacts.

(** * More facts at the sample sessions *)

Lemma closed_session_is_inert_witness :
  posted (trace (run_calls sample_header_size sample_payload_length sample_packet_no
                   sample_receive_floor refuse 1
                   [call_SendPacket [Byte.x2a]; call_PostReceive;
                    call_PostWrite_completion asio_error.success 3;
                    call_PostReceive_completion asio_error.success 5; call_destructor]
                   session_closed)) = [].
Proof.
  destruct (closed_session_is_inert sample_header_size sample_payload_length sample_packet_no
              sample_receive_floor refuse 1
              [call_SendPacket [Byte.x2a]; call_PostReceive;
               call_PostWrite_completion asio_error.success 3;
               call_PostReceive_completion asio_error.success 5; call_destructor]
              session_closed) as (_ & _ & _ & H & _).
  - reflexivity.
  - exact H.
Defined.

Lemma write_side_frame_witness :
  _recvBuffer (final (run_call sample_header_size sample_payload_length sample_packet_no
                        sample_receive_floor refuse 1 (call_SendPacket [Byte.x2a])
                        session_open)) = _recvBuffer session_open.
Proof.
  destruct (write_side_frame sample_header_size sample_payload_length sample_packet_no
              sample_receive_floor refuse 1 (call_SendPacket [Byte.x2a]) session_open)
    as (H & _).
  - reflexivity.
  - exact H.
Defined.

Lemma write_side_lock_discipline_witness :
  exists held,
    lock_discipline false
      (trace (run_call sample_header_size sample_payload_length sample_packet_no
                sample_receive_floor refuse 1
                (call_PostWrite_completion asio_error.success 2) session_open)) = Some held /\
    (out (run_call sample_header_size sample_payload_length sample_packet_no
            sample_receive_floor refuse 1
            (call_PostWrite_completion asio_error.success 2) session_open) = Returned tt ->
     held = false).
Proof.
  apply (write_side_lock_discipline sample_header_size sample_payload_length sample_packet_no
           sample_receive_floor refuse 1 (call_PostWrite_completion asio_error.success 2)
           session_open).
  reflexivity.
Defined.

Lemma failing_completion_closes_socket_witness :
  is_open (_socket (final (PostWrite_completion asio_error.timed_out 0 session_open))) = false.
Proof.
  destruct (failing_completion_closes_socket sample_header_size sample_payload_length
              sample_packet_no sample_receive_floor refuse 1 session_open
              asio_error.timed_out 0) as (_ & Hclosed & _ & Hreturns & _).
  - reflexivity.
  - reflexivity.
  - destruct (Hclosed (Hreturns eq_refl eq_refl)) as (H & _). rewrite H. reflexivity.
Defined.

Lemma receive_overrun_shuts_down_witness :
  posted (trace (PostReceive_completion sample_header_size sample_payload_length
                   sample_packet_no sample_receive_floor refuse 1
                   asio_error.success 1 session_full)) = [].
Proof.
  destruct (receive_overrun_shuts_down sample_header_size sample_payload_length
              sample_packet_no sample_receive_floor refuse 1 session_full
              asio_error.success 1) as (_ & _ & _ & H).
  - reflexivity.
  - reflexivity.
  - reflexivity.
  - discriminate.
  - cbn. lia.
  - exact H.
Defined.

Lemma read_completion_rearms_witness :
  out (PostReceive_completion sample_header_size sample_payload_length sample_packet_no
         sample_receive_floor refuse 1 asio_error.success 3 session_arriving) = Returned tt.
Proof.
  destruct (read_completion_rearms sample_header_size sample_payload_length sample_packet_no
              sample_receive_floor refuse 1 0 session_arriving
              (with_recvBuffer session_arriving three_arrived)
              asio_error.success 3 three_arrived []) as (H & _).
  - reflexivity.
  - reflexivity.
  - reflexivity.
  - discriminate.
  - reflexivity.
  - constructor.
  - reflexivity.
  - lia.
  - exact H.
Defined.

Lemma handler_exception_escapes_witness :
  PostReceive_completion sample_header_size sample_payload_length sample_packet_no
    sample_receive_floor throwing 1 asio_error.success 5 session_arriving
  = Result (Thrown (system_error asio_error.operation_aborted))
      (with_recvBuffer session_arriving one_ready) ([] ++ [ev_dispatch]).
Proof.
  apply (handler_exception_escapes sample_header_size sample_payload_length sample_packet_no
           sample_receive_floor throwing 1 0 session_arriving
           (with_recvBuffer session_arriving one_ready)
           (with_recvBuffer session_arriving one_ready)
           asio_error.success 5 one_ready [] []
           (system_error asio_error.operation_aborted)).
  - reflexivity.
  - reflexivity.
  - reflexivity.
  - discriminate.
  - reflexivity.
  - constructor.
  - reflexivity.
  - reflexivity.
  - lia.
Defined.

Lemma SendPacket_overflow_is_local_witness :
  out (SendPacket (repeat Byte.x2a 6) session_open) = Returned false.
Proof.
  rewrite (SendPacket_overflow_is_local session_open (repeat Byte.x2a 6)).
  - reflexivity.
  - cbn. lia.
Defined.

Lemma SendPacket_posts_pending_and_packet_witness :
  out (SendPacket [Byte.x2a] session_open) = Returned true.
Proof.
  destruct (SendPacket_posts_pending_and_packet session_open [Byte.x2a]) as (H & _).
  - reflexivity.
  - unfold well_formed. cbn. lia.
  - cbn. lia.
  - cbn. lia.
  - exact H.
Defined.

Lemma back_to_back_sends_overlap_witness :
  posted (trace ((SendPacket [Byte.x2a] ;; SendPacket [Byte.x2b]) session_open))
  = [ev_async_write (GetBuffer (_sendBuffer session_open) ++ [Byte.x2a]);
     ev_async_write ((GetBuffer (_sendBuffer session_open) ++ [Byte.x2a]) ++ [Byte.x2b])].
Proof.
  destruct (back_to_back_sends_overlap session_open [Byte.x2a] [Byte.x2b]) as (_ & H).
  - reflexivity.
  - unfold well_formed. cbn. lia.
  - cbn. lia.
  - cbn. lia.
  - exact H.
Defined.

Lemma write_completion_resumes_at_suffix_witness :
  readCursor (_sendBuffer session_open) = 0 /\
  GetBufferSize (_sendBuffer session_open) = 3 /\
  readCursor (_sendBuffer (final (PostWrite_completion asio_error.success 3 session_open))) = 0 /\
  writeCursor (_sendBuffer (final (PostWrite_completion asio_error.success 3 session_open))) = 0.
Proof.
  split; [reflexivity | split; [reflexivity|]].
  destruct (write_completion_resumes_at_suffix session_open asio_error.success 3)
    as (_ & _ & H & _).
  - reflexivity.
  - reflexivity.
  - reflexivity.
  - unfold well_formed. cbn. lia.
  - lia.
  - cbn. lia.
  - apply H. reflexivity.
Defined.

Lemma read_within_request_never_overruns_witness :
  GetBuffer (_recvBuffer (final (PostReceive sample_receive_floor session_arriving)))
  = GetBuffer (_recvBuffer session_arriving).
Proof.
  destruct (read_within_request_never_overruns sample_receive_floor session_arriving 5)
    as (_ & H & _).
  - reflexivity.
  - unfold well_formed. cbn. lia.
  - cbn. lia.
  - exact H.
Defined.

Lemma completion_throws_when_peer_unknown_witness :
  PostWrite_completion asio_error.connection_reset 0 session_peer_gone
  = Result (Thrown (system_error asio_error.not_connected)) session_peer_gone
      [ev_lock_w; ev_unlock_w].
Proof.
  destruct (completion_throws_when_peer_unknown sample_header_size sample_payload_length
              sample_packet_no sample_receive_floor refuse 1 session_peer_gone
              asio_error.connection_reset 0) as (_ & H).
  - reflexivity.
  - reflexivity.
  - exact H.
Defined.

Lemma drain_stops_at_first_failure_witness :
  let r := PostReceive_completion sample_header_size sample_payload_length sample_packet_no
             sample_receive_floor (sample_consume (Z.eqb 42)) 2
             asio_error.success 9 session_two_arriving in
  dispatches (trace r) = 2%nat /\ posted (trace r) = [] /\
  shutdown_requests (trace r) = [shutdown_receive].
Proof.
  destruct (drain_stops_at_first_failure sample_header_size sample_payload_length
              sample_packet_no sample_receive_floor (sample_consume (Z.eqb 42)) 2 1
              session_two_arriving
              (with_recvBuffer session_two_arriving (TruncateBuffer 5 two_ready))
              (with_recvBuffer session_two_arriving (TruncateBuffer 9 two_ready))
              asio_error.success 9 two_ready [ev_dispatch] []) as (Ht & _).
  - reflexivity.
  - reflexivity.
  - reflexivity.
  - discriminate.
  - reflexivity.
  - apply (dispatched_S sample_header_size sample_payload_length (sample_consume (Z.eqb 42))
             0 (with_recvBuffer session_two_arriving two_ready)
             (with_recvBuffer session_two_arriving (TruncateBuffer 5 two_ready))
             (with_recvBuffer session_two_arriving (TruncateBuffer 5 two_ready)) [] []).
    + reflexivity.
    + reflexivity.
    + constructor.
  - reflexivity.
  - reflexivity.
  - lia.
  - cbn zeta. rewrite Ht. repeat split; reflexivity.
Defined.
